(** * SmartSDLC: the orchestration core, embedded and verified

    A shallow embedding of the server side of the application:

    - [server/services/openai.ts]       (module [OpenAI]),
    - [server/services/pdfProcessor.ts] (module [PDFProcessor]),
    - [shared/schema.ts]                (module [Schema]),
    - [server/storage.ts]               (module [Storage]),
    - [server/routes.ts]                (module [Routes]).

    Conventions of the embedding.

    - A JavaScript [string] is a Rocq [string]; a [number] that the code
      uses as a count, a percentage or a size is a [Z]; a [Date] is the
      [Z] of its epoch milliseconds.
    - A [Map<string, T>] is a [gmap string T]; a plain object used as a
      dictionary (the statistics tally) is a [gmap string Z].
    - A value read out of a parsed model response is taken at the type the
      source declares for it ([ClassificationItem], [BugFixResult], ...);
      a property that is missing (or [null]) is [None].
    - [randomUUID()], [new Date()], the language model and pdf.js are the
      environment: their results are arguments of the functions that use
      them.  Promises are run to completion: an [async] function that
      rejects is a function that returns [Throw]. *)

From stdpp Require Import gmap strings list fin_maps.
From Stdlib Require Import ZArith NArith.
From Stdlib Require Strings.Byte.
From Stdlib Require Import Strings.Ascii.

Local Open Scope Z_scope.

(** ** JavaScript idioms *)

Module JS.

(** The outcome of a computation that may throw [new Error(message)]. *)
Inductive Exn (A : Type) : Type :=
| Ok (a : A)
| Throw (message : string).
Arguments Ok {A} a.
Arguments Throw {A} message.

(** An optional and nullable property of an object literal, as in
    [userId?: string | null]. *)
Inductive Optional (A : Type) : Type :=
| Undefined
| Null
| Val (a : A).
Arguments Undefined {A}.
Arguments Null {A}.
Arguments Val {A} a.

(** [x ?? null] *)
Definition or_null {A} (x : Optional A) : option A :=
  match x with
  | Val a => Some a
  | Undefined | Null => None
  end.

(** Truthiness of a string and of a number. *)
Definition truthy_string (s : string) : bool :=
  match s with
  | EmptyString => false
  | String _ _ => true
  end.

Definition truthy_number (n : Z) : bool := negb (n =? 0).

(** [x || d] for a string property [x] that may be missing. *)
Definition string_or (x : option string) (d : string) : string :=
  match x with
  | Some s => if truthy_string s then s else d
  | None => d
  end.

(** [x || d] for a number property [x] that may be missing. *)
Definition number_or (x : option Z) (d : Z) : Z :=
  match x with
  | Some n => if truthy_number n then n else d
  | None => d
  end.

(** [x || d] for an array property [x] that may be missing: an array,
    even an empty one, is truthy. *)
Definition array_or {A} (x : option (list A)) (d : list A) : list A :=
  match x with
  | Some l => l
  | None => d
  end.

(** [obj.hasOwnProperty(key)] on a dictionary object. *)
Definition hasOwnProperty (obj : gmap string Z) (key : string) : bool :=
  bool_decide (is_Some (obj !! key)).

(** [obj[key]++] on a dictionary object whose [key] is present. *)
Definition increment (obj : gmap string Z) (key : string) : gmap string Z :=
  alter (fun n => n + 1) key obj.

End JS.

Import JS.

(** ** [server/services/openai.ts] *)

Module OpenAI.

(** What one call of [openai.chat.completions.create] followed by
    [JSON.parse(response.choices[0].message.content || "{}")] comes to:
    the request fails, the content is not JSON, or it parses to [result].
    An exception raised while the operation reads a content that parsed
    (a TypeError on [null], say) ends in the same [catch] as a failed
    request: it is an [ApiError] with that message. *)
Inductive Completion (A : Type) : Type :=
| ApiError (message : string)
| SyntaxError (message : string)
| Parsed (result : A).
Arguments ApiError {A} message.
Arguments SyntaxError {A} message.
Arguments Parsed {A} result.

Module ClassificationItem.
Record t : Type := mk
  { text : string;
    phase : string;
    confidence : Z;
    userStory : string }.
End ClassificationItem.

(** The parsed response of the classification prompt: both properties
    may be missing. *)
Module ClassificationJSON.
Record t : Type := mk
  { requirements : option (list ClassificationItem.t);
    statistics : option (gmap string Z) }.
End ClassificationJSON.

Module ClassificationResult.
Record t : Type := mk
  { requirements : list ClassificationItem.t;
    statistics : gmap string Z }.
End ClassificationResult.

(** The five phase labels. *)
Inductive Phase : Type :=
| Requirements
| Design
| Development
| Testing
| Deployment.

Definition label (p : Phase) : string :=
  match p with
  | Requirements => "Requirements"
  | Design => "Design"
  | Development => "Development"
  | Testing => "Testing"
  | Deployment => "Deployment"
  end.

(** [const statistics = { Requirements: 0, Design: 0, Development: 0,
    Testing: 0, Deployment: 0 }] *)
Definition zero_statistics : gmap string Z :=
  <["Requirements" := 0]> (<["Design" := 0]> (<["Development" := 0]>
    (<["Testing" := 0]> (<["Deployment" := 0]> ∅)))).

(** The body of the [forEach] callback. *)
Definition tally (statistics : gmap string Z) (req : ClassificationItem.t)
  : gmap string Z :=
  if hasOwnProperty statistics (ClassificationItem.phase req)
  then increment statistics (ClassificationItem.phase req)
  else statistics.

(** [result.requirements?.forEach(...)] *)
Definition tally_all (requirements : option (list ClassificationItem.t))
  : gmap string Z :=
  match requirements with
  | Some reqs => foldl tally zero_statistics reqs
  | None => zero_statistics
  end.

(** [classifyRequirements(text)]: [text] only enters the prompt. *)
Definition classifyRequirements (text : string)
    (completion : Completion ClassificationJSON.t)
  : Exn ClassificationResult.t :=
  match completion with
  | ApiError message | SyntaxError message =>
      Throw ("Requirements classification failed: " +:+ message)
  | Parsed result =>
      Ok {| ClassificationResult.requirements :=
              array_or (ClassificationJSON.requirements result) [];
            ClassificationResult.statistics :=
              tally_all (ClassificationJSON.requirements result) |}
  end.

Module BugFixJSON.
Record t : Type := mk
  { fixedCode : option string;
    issues : option (list string);
    optimizations : option (list string) }.
End BugFixJSON.

Module BugFixResult.
Record t : Type := mk
  { fixedCode : string;
    issues : list string;
    optimizations : list string }.
End BugFixResult.

(** [fixBugs(code, language = 'python')]: [language] only enters the
    prompt. *)
Definition fixBugs (code : string) (language : option string)
    (completion : Completion BugFixJSON.t)
  : Exn BugFixResult.t :=
  match completion with
  | ApiError message | SyntaxError message =>
      Throw ("Bug fixing failed: " +:+ message)
  | Parsed result =>
      Ok {| BugFixResult.fixedCode := string_or (BugFixJSON.fixedCode result) code;
            BugFixResult.issues := array_or (BugFixJSON.issues result) [];
            BugFixResult.optimizations :=
              array_or (BugFixJSON.optimizations result) [] |}
  end.

Module TestGenerationJSON.
Record t : Type := mk
  { testCode : option string;
    coverage : option Z;
    totalTests : option Z;
    positiveTests : option Z;
    negativeTests : option Z }.
End TestGenerationJSON.

Module TestGenerationResult.
Record t : Type := mk
  { testCode : string;
    coverage : Z;
    totalTests : Z;
    positiveTests : Z;
    negativeTests : Z }.
End TestGenerationResult.

(** [generateTestCases(code, framework = 'unittest', inputType = 'code')]:
    the three arguments only enter the prompt. *)
Definition generateTestCases (code : string) (framework inputType : option string)
    (completion : Completion TestGenerationJSON.t)
  : Exn TestGenerationResult.t :=
  match completion with
  | ApiError message | SyntaxError message =>
      Throw ("Test generation failed: " +:+ message)
  | Parsed result =>
      Ok {| TestGenerationResult.testCode :=
              string_or (TestGenerationJSON.testCode result) "";
            TestGenerationResult.coverage :=
              number_or (TestGenerationJSON.coverage result) 0;
            TestGenerationResult.totalTests :=
              number_or (TestGenerationJSON.totalTests result) 0;
            TestGenerationResult.positiveTests :=
              number_or (TestGenerationJSON.positiveTests result) 0;
            TestGenerationResult.negativeTests :=
              number_or (TestGenerationJSON.negativeTests result) 0 |}
  end.

End OpenAI.


(** ** [server/services/pdfProcessor.ts] *)

Module PDFProcessor.

(** A Node [Buffer]: a sequence of bytes. *)
Abbreviation Buffer := (list Byte.byte).

(** *** [Buffer.prototype.toString()]

    [buffer.toString()] decodes the bytes as UTF-8 and puts U+FFFD in the
    place of every ill-formed sequence.  The decoder below is the one of
    the Encoding Standard (state: code point, bytes seen, bytes needed,
    lower and upper boundary of the next continuation byte); a decoded
    string is the list of its code points. *)
Record utf8_state : Type := mk_utf8_state
  { code_point : N;
    bytes_seen : N;
    bytes_needed : N;
    lower_boundary : N;
    upper_boundary : N }.

Definition REPLACEMENT_CHARACTER : N := 0xFFFD.

Definition utf8_initial : utf8_state :=
  mk_utf8_state 0 0 0 0x80 0xBF.

(** A byte read when no sequence is pending.  For a lead byte,
    [b - 0xC0], [b - 0xE0] and [b - 0xF0] are [b & 0x1F], [b & 0xF] and
    [b & 0x7]. *)
Definition utf8_lead (b : N) : utf8_state * list N :=
  (if b <=? 0x7F then (utf8_initial, [b])
   else if (0xC2 <=? b) && (b <=? 0xDF) then
     (mk_utf8_state (b - 0xC0) 0 1 0x80 0xBF, [])
   else if (0xE0 <=? b) && (b <=? 0xEF) then
     (mk_utf8_state (b - 0xE0) 0 2
        (if b =? 0xE0 then 0xA0 else 0x80)
        (if b =? 0xED then 0x9F else 0xBF), [])
   else if (0xF0 <=? b) && (b <=? 0xF4) then
     (mk_utf8_state (b - 0xF0) 0 3
        (if b =? 0xF0 then 0x90 else 0x80)
        (if b =? 0xF4 then 0x8F else 0xBF), [])
   else (utf8_initial, [REPLACEMENT_CHARACTER]))%N.

(** One byte.  A byte outside the boundaries ends the pending sequence with
    U+FFFD and is read again as a first byte; for a continuation byte,
    [b - 0x80] is [b & 0x3F] and [c * 64 + _] is [(c << 6) | _]. *)
Definition utf8_step (st : utf8_state) (b : N) : utf8_state * list N :=
  (if bytes_needed st =? 0 then utf8_lead b
   else if (b <? lower_boundary st) || (upper_boundary st <? b) then
     (fst (utf8_lead b), REPLACEMENT_CHARACTER :: snd (utf8_lead b))
   else
     let c := code_point st * 64 + (b - 0x80) in
     if bytes_seen st + 1 =? bytes_needed st then (utf8_initial, [c])
     else (mk_utf8_state c (bytes_seen st + 1) (bytes_needed st) 0x80 0xBF, []))%N.

Fixpoint utf8_decode (st : utf8_state) (bytes : Buffer) : list N :=
  match bytes with
  | [] => if (bytes_needed st =? 0)%N then [] else [REPLACEMENT_CHARACTER]
  | b :: bytes' =>
      snd (utf8_step st (Byte.to_N b))
        ++ utf8_decode (fst (utf8_step st (Byte.to_N b))) bytes'
  end.

Definition toString (buffer : Buffer) : list N :=
  utf8_decode utf8_initial buffer.

(** The code points of a string literal of the source. *)
Definition code_points (s : string) : list N :=
  map Ascii.N_of_ascii (String.list_ascii_of_string s).

(** The four bytes ["%PDF"]. *)
Definition PDF_SIGNATURE : Buffer :=
  [Byte.x25; Byte.x50; Byte.x44; Byte.x46].

(** [buffer.slice(0, 4)] *)
Definition slice_0_4 (buffer : Buffer) : Buffer := take 4 buffer.

(** [validatePDF(buffer)] *)
Definition validatePDF (buffer : Buffer) : bool :=
  bool_decide (toString (slice_0_4 buffer) = code_points "%PDF").

(** [getFileSize(buffer)] *)
Definition getFileSize (buffer : Buffer) : Z := Z.of_nat (length buffer).

(** [isFileSizeValid(buffer, maxSizeMB = 10)] *)
Definition isFileSizeValid (buffer : Buffer) (maxSizeMB : option Z) : bool :=
  let maxSizeBytes := default 10 maxSizeMB * 1024 * 1024 in
  getFileSize buffer <=? maxSizeBytes.

(** *** [extractText]

    pdf.js is the environment: [getDocument] either fails or gives, page
    by page, the items of [getTextContent()], each with an optional [str]. *)
Module PDFProcessingResult.
Record t : Type := mk
  { text : string;
    pages : Z }.
End PDFProcessingResult.

Definition is_white_space (a : Ascii.ascii) : bool :=
  let n := Ascii.nat_of_ascii a in
  ((9 <=? n) && (n <=? 13) || (n =? 32))%nat.

Fixpoint trim_start (s : list Ascii.ascii) : list Ascii.ascii :=
  match s with
  | a :: s' => if is_white_space a then trim_start s' else s
  | [] => []
  end.

(** [s.trim()] *)
Definition trim (s : string) : string :=
  String.string_of_list_ascii
    (rev (trim_start (rev (trim_start (String.list_ascii_of_string s))))).

(** The text of one page:
    [items.filter(item => item.str).map(item => item.str).join(' ')] *)
Definition pageText (items : list (option string)) : string :=
  String.concat " "
    (omap (fun item => match item with
                       | Some str => if truthy_string str then Some str else None
                       | None => None
                       end) items).

(** [extractText(buffer)], given what pdf.js made of the buffer. *)
Definition extractText (pdfjs : Exn (list (list (option string))))
  : Exn PDFProcessingResult.t :=
  match pdfjs with
  | Throw message => Throw ("PDF processing failed: " +:+ message)
  | Ok pdf =>
      let fullText :=
        foldl (fun fullText items => fullText +:+ pageText items +:+ String "010"%char "")
              "" pdf in
      Ok {| PDFProcessingResult.text := trim fullText;
            PDFProcessingResult.pages := Z.of_nat (length pdf) |}
  end.

End PDFProcessor.


(** ** [shared/schema.ts]

    The select types ([typeof table.$inferSelect]): a column without
    [notNull()] is nullable.  The insert types omit [id] and the creation
    stamp, and make the nullable columns optional.  A [Date] is a [Z]. *)

Module Schema.

Module User.
Record t : Type := mk
  { id : string;
    username : string;
    password : string;
    email : string;
    createdAt : option Z }.
End User.

Module InsertUser.
Record t : Type := mk
  { username : string;
    password : string;
    email : string }.
End InsertUser.

Module Document.
Record t : Type := mk
  { id : string;
    userId : option string;
    filename : string;
    content : string;
    uploadedAt : option Z }.
End Document.

Module InsertDocument.
Record t : Type := mk
  { userId : Optional string;
    filename : string;
    content : string }.
End InsertDocument.

Module Requirement.
Record t : Type := mk
  { id : string;
    documentId : option string;
    userId : option string;
    text : string;
    phase : string;
    confidence : Z;
    userStory : option string;
    createdAt : option Z }.
End Requirement.

Module InsertRequirement.
Record t : Type := mk
  { documentId : Optional string;
    userId : Optional string;
    text : string;
    phase : string;
    confidence : Z;
    userStory : Optional string }.
End InsertRequirement.

Module CodeSnippet.
Record t : Type := mk
  { id : string;
    userId : option string;
    title : string;
    description : option string;
    language : string;
    code : string;
    generatedCode : option string;
    type : string;
    createdAt : option Z }.
End CodeSnippet.

Module InsertCodeSnippet.
Record t : Type := mk
  { userId : Optional string;
    title : string;
    description : Optional string;
    language : string;
    code : string;
    generatedCode : Optional string;
    type : string }.
End InsertCodeSnippet.

(** [Partial<CodeSnippet>]: every property of a code snippet, each one
    given ([Some]) or left out ([None]). *)
Module PartialCodeSnippet.
Record t : Type := mk
  { id : option string;
    userId : option (option string);
    title : option string;
    description : option (option string);
    language : option string;
    code : option string;
    generatedCode : option (option string);
    type : option string;
    createdAt : option (option Z) }.
End PartialCodeSnippet.

Module TestCase.
Record t : Type := mk
  { id : string;
    userId : option string;
    codeSnippetId : option string;
    framework : string;
    testCode : string;
    coverage : option Z;
    totalTests : option Z;
    createdAt : option Z }.
End TestCase.

Module InsertTestCase.
Record t : Type := mk
  { userId : Optional string;
    codeSnippetId : Optional string;
    framework : string;
    testCode : string;
    coverage : Optional Z;
    totalTests : Optional Z }.
End InsertTestCase.

Module Documentation.
Record t : Type := mk
  { id : string;
    userId : option string;
    codeSnippetId : option string;
    style : string;
    overview : option string;
    features : option (list string);
    methods : option (list (string * string));
    example : option string;
    createdAt : option Z }.
End Documentation.

Module InsertDocumentation.
Record t : Type := mk
  { userId : Optional string;
    codeSnippetId : Optional string;
    style : string;
    overview : Optional string;
    features : Optional (list string);
    methods : Optional (list (string * string));
    example : Optional string }.
End InsertDocumentation.

Module ChatMessage.
Record t : Type := mk
  { id : string;
    userId : option string;
    message : string;
    response : string;
    createdAt : option Z }.
End ChatMessage.

Module InsertChatMessage.
Record t : Type := mk
  { userId : Optional string;
    message : string;
    response : string }.
End InsertChatMessage.

End Schema.

Import Schema.


(** ** [server/storage.ts]

    [MemStorage]: one [Map] from identifier to record per entity kind.  A
    method takes the store and gives its result with the store after it;
    a [create] method also takes what [randomUUID()] and [new Date()]
    give it.  The by-owner listings only read the maps. *)

Module Storage.

Module MemStorage.
Record t : Type := mk
  { users : gmap string User.t;
    documents : gmap string Document.t;
    requirements : gmap string Requirement.t;
    codeSnippets : gmap string CodeSnippet.t;
    testCases : gmap string TestCase.t;
    documentations : gmap string Documentation.t;
    chatMessages : gmap string ChatMessage.t }.
End MemStorage.
Import MemStorage.

Definition set_users (m : gmap string User.t) (this : MemStorage.t) :=
  mk m (documents this) (requirements this) (codeSnippets this)
     (testCases this) (documentations this) (chatMessages this).

Definition set_documents (m : gmap string Document.t) (this : MemStorage.t) :=
  mk (users this) m (requirements this) (codeSnippets this)
     (testCases this) (documentations this) (chatMessages this).

Definition set_requirements (m : gmap string Requirement.t) (this : MemStorage.t) :=
  mk (users this) (documents this) m (codeSnippets this)
     (testCases this) (documentations this) (chatMessages this).

Definition set_codeSnippets (m : gmap string CodeSnippet.t) (this : MemStorage.t) :=
  mk (users this) (documents this) (requirements this) m
     (testCases this) (documentations this) (chatMessages this).

Definition set_testCases (m : gmap string TestCase.t) (this : MemStorage.t) :=
  mk (users this) (documents this) (requirements this) (codeSnippets this)
     m (documentations this) (chatMessages this).

Definition set_documentations (m : gmap string Documentation.t) (this : MemStorage.t) :=
  mk (users this) (documents this) (requirements this) (codeSnippets this)
     (testCases this) m (chatMessages this).

Definition set_chatMessages (m : gmap string ChatMessage.t) (this : MemStorage.t) :=
  mk (users this) (documents this) (requirements this) (codeSnippets this)
     (testCases this) (documentations this) m.

(** [constructor()]: the default user for development. *)
Definition constructor (now : Z) : MemStorage.t :=
  let defaultUser :=
    {| User.id := "default-user";
       User.username := "developer";
       User.password := "password";
       User.email := "dev@company.com";
       User.createdAt := Some now |} in
  mk {[ User.id defaultUser := defaultUser ]} ∅ ∅ ∅ ∅ ∅ ∅.

Definition getUser (id : string) (this : MemStorage.t) : option User.t :=
  users this !! id.

Definition createUser (id : string) (now : Z) (insertUser : InsertUser.t)
    (this : MemStorage.t) : User.t * MemStorage.t :=
  let user :=
    {| User.id := id;
       User.username := InsertUser.username insertUser;
       User.password := InsertUser.password insertUser;
       User.email := InsertUser.email insertUser;
       User.createdAt := Some now |} in
  (user, set_users (<[id := user]> (users this)) this).

Definition createDocument (id : string) (now : Z) (insertDocument : InsertDocument.t)
    (this : MemStorage.t) : Document.t * MemStorage.t :=
  let document :=
    {| Document.id := id;
       Document.userId := or_null (InsertDocument.userId insertDocument);
       Document.filename := InsertDocument.filename insertDocument;
       Document.content := InsertDocument.content insertDocument;
       Document.uploadedAt := Some now |} in
  (document, set_documents (<[id := document]> (documents this)) this).

Definition getDocument (id : string) (this : MemStorage.t) : option Document.t :=
  documents this !! id.

Definition createRequirement (id : string) (now : Z)
    (insertRequirement : InsertRequirement.t)
    (this : MemStorage.t) : Requirement.t * MemStorage.t :=
  let requirement :=
    {| Requirement.id := id;
       Requirement.documentId := or_null (InsertRequirement.documentId insertRequirement);
       Requirement.userId := or_null (InsertRequirement.userId insertRequirement);
       Requirement.text := InsertRequirement.text insertRequirement;
       Requirement.phase := InsertRequirement.phase insertRequirement;
       Requirement.confidence := InsertRequirement.confidence insertRequirement;
       Requirement.userStory := or_null (InsertRequirement.userStory insertRequirement);
       Requirement.createdAt := Some now |} in
  (requirement, set_requirements (<[id := requirement]> (requirements this)) this).

Definition createCodeSnippet (id : string) (now : Z)
    (insertSnippet : InsertCodeSnippet.t)
    (this : MemStorage.t) : CodeSnippet.t * MemStorage.t :=
  let snippet :=
    {| CodeSnippet.id := id;
       CodeSnippet.userId := or_null (InsertCodeSnippet.userId insertSnippet);
       CodeSnippet.title := InsertCodeSnippet.title insertSnippet;
       CodeSnippet.description := or_null (InsertCodeSnippet.description insertSnippet);
       CodeSnippet.language := InsertCodeSnippet.language insertSnippet;
       CodeSnippet.code := InsertCodeSnippet.code insertSnippet;
       CodeSnippet.generatedCode := or_null (InsertCodeSnippet.generatedCode insertSnippet);
       CodeSnippet.type := InsertCodeSnippet.type insertSnippet;
       CodeSnippet.createdAt := Some now |} in
  (snippet, set_codeSnippets (<[id := snippet]> (codeSnippets this)) this).

Definition getCodeSnippet (id : string) (this : MemStorage.t) : option CodeSnippet.t :=
  codeSnippets this !! id.

(** [{ ...existing, ...updates }]: a property given in [updates] replaces
    the one of [existing]. *)
Definition spread (existing : CodeSnippet.t) (updates : PartialCodeSnippet.t)
  : CodeSnippet.t :=
  {| CodeSnippet.id := default (CodeSnippet.id existing) (PartialCodeSnippet.id updates);
     CodeSnippet.userId :=
       default (CodeSnippet.userId existing) (PartialCodeSnippet.userId updates);
     CodeSnippet.title :=
       default (CodeSnippet.title existing) (PartialCodeSnippet.title updates);
     CodeSnippet.description :=
       default (CodeSnippet.description existing) (PartialCodeSnippet.description updates);
     CodeSnippet.language :=
       default (CodeSnippet.language existing) (PartialCodeSnippet.language updates);
     CodeSnippet.code :=
       default (CodeSnippet.code existing) (PartialCodeSnippet.code updates);
     CodeSnippet.generatedCode :=
       default (CodeSnippet.generatedCode existing)
               (PartialCodeSnippet.generatedCode updates);
     CodeSnippet.type :=
       default (CodeSnippet.type existing) (PartialCodeSnippet.type updates);
     CodeSnippet.createdAt :=
       default (CodeSnippet.createdAt existing) (PartialCodeSnippet.createdAt updates) |}.

Definition updateCodeSnippet (id : string) (updates : PartialCodeSnippet.t)
    (this : MemStorage.t) : option CodeSnippet.t * MemStorage.t :=
  match codeSnippets this !! id with
  | Some existing =>
      let updated := spread existing updates in
      (Some updated, set_codeSnippets (<[id := updated]> (codeSnippets this)) this)
  | None => (None, this)
  end.

Definition createTestCase (id : string) (now : Z) (insertTestCase : InsertTestCase.t)
    (this : MemStorage.t) : TestCase.t * MemStorage.t :=
  let testCase :=
    {| TestCase.id := id;
       TestCase.userId := or_null (InsertTestCase.userId insertTestCase);
       TestCase.codeSnippetId := or_null (InsertTestCase.codeSnippetId insertTestCase);
       TestCase.framework := InsertTestCase.framework insertTestCase;
       TestCase.testCode := InsertTestCase.testCode insertTestCase;
       TestCase.coverage := or_null (InsertTestCase.coverage insertTestCase);
       TestCase.totalTests := or_null (InsertTestCase.totalTests insertTestCase);
       TestCase.createdAt := Some now |} in
  (testCase, set_testCases (<[id := testCase]> (testCases this)) this).

Definition createDocumentation (id : string) (now : Z)
    (insertDocumentation : InsertDocumentation.t)
    (this : MemStorage.t) : Documentation.t * MemStorage.t :=
  let documentation :=
    {| Documentation.id := id;
       Documentation.userId := or_null (InsertDocumentation.userId insertDocumentation);
       Documentation.codeSnippetId :=
         or_null (InsertDocumentation.codeSnippetId insertDocumentation);
       Documentation.style := InsertDocumentation.style insertDocumentation;
       Documentation.overview := or_null (InsertDocumentation.overview insertDocumentation);
       Documentation.features := or_null (InsertDocumentation.features insertDocumentation);
       Documentation.methods := or_null (InsertDocumentation.methods insertDocumentation);
       Documentation.example := or_null (InsertDocumentation.example insertDocumentation);
       Documentation.createdAt := Some now |} in
  (documentation,
   set_documentations (<[id := documentation]> (documentations this)) this).

Definition createChatMessage (id : string) (now : Z)
    (insertMessage : InsertChatMessage.t)
    (this : MemStorage.t) : ChatMessage.t * MemStorage.t :=
  let message :=
    {| ChatMessage.id := id;
       ChatMessage.userId := or_null (InsertChatMessage.userId insertMessage);
       ChatMessage.message := InsertChatMessage.message insertMessage;
       ChatMessage.response := InsertChatMessage.response insertMessage;
       ChatMessage.createdAt := Some now |} in
  (message, set_chatMessages (<[id := message]> (chatMessages this)) this).

(** *** The store as a transition system

    The methods that write, as operations; [apply] runs one. *)
Inductive Operation : Type :=
| CreateUser (id : string) (now : Z) (insertUser : InsertUser.t)
| CreateDocument (id : string) (now : Z) (insertDocument : InsertDocument.t)
| CreateRequirement (id : string) (now : Z) (insertRequirement : InsertRequirement.t)
| CreateCodeSnippet (id : string) (now : Z) (insertSnippet : InsertCodeSnippet.t)
| UpdateCodeSnippet (id : string) (updates : PartialCodeSnippet.t)
| CreateTestCase (id : string) (now : Z) (insertTestCase : InsertTestCase.t)
| CreateDocumentation (id : string) (now : Z) (insertDocumentation : InsertDocumentation.t)
| CreateChatMessage (id : string) (now : Z) (insertMessage : InsertChatMessage.t).

Definition apply (op : Operation) (this : MemStorage.t) : MemStorage.t :=
  match op with
  | CreateUser id now i => snd (createUser id now i this)
  | CreateDocument id now i => snd (createDocument id now i this)
  | CreateRequirement id now i => snd (createRequirement id now i this)
  | CreateCodeSnippet id now i => snd (createCodeSnippet id now i this)
  | UpdateCodeSnippet id updates => snd (updateCodeSnippet id updates this)
  | CreateTestCase id now i => snd (createTestCase id now i this)
  | CreateDocumentation id now i => snd (createDocumentation id now i this)
  | CreateChatMessage id now i => snd (createChatMessage id now i this)
  end.

(** The entity kinds, and the identifier and creation stamp of the record
    stored under [key] in the partition of a kind. *)
Inductive Kind : Type :=
| KUser | KDocument | KRequirement | KCodeSnippet
| KTestCase | KDocumentation | KChatMessage.

Definition stamp (kind : Kind) (this : MemStorage.t) (key : string)
  : option (string * option Z) :=
  match kind with
  | KUser => (fun r => (User.id r, User.createdAt r)) <$> users this !! key
  | KDocument => (fun r => (Document.id r, Document.uploadedAt r)) <$> documents this !! key
  | KRequirement =>
      (fun r => (Requirement.id r, Requirement.createdAt r)) <$> requirements this !! key
  | KCodeSnippet =>
      (fun r => (CodeSnippet.id r, CodeSnippet.createdAt r)) <$> codeSnippets this !! key
  | KTestCase => (fun r => (TestCase.id r, TestCase.createdAt r)) <$> testCases this !! key
  | KDocumentation =>
      (fun r => (Documentation.id r, Documentation.createdAt r))
        <$> documentations this !! key
  | KChatMessage =>
      (fun r => (ChatMessage.id r, ChatMessage.createdAt r)) <$> chatMessages this !! key
  end.

(** [randomUUID()] drew an identifier that is not in use in the partition
    it goes to. *)
Definition fresh (op : Operation) (this : MemStorage.t) : Prop :=
  match op with
  | CreateUser id _ _ => users this !! id = None
  | CreateDocument id _ _ => documents this !! id = None
  | CreateRequirement id _ _ => requirements this !! id = None
  | CreateCodeSnippet id _ _ => codeSnippets this !! id = None
  | UpdateCodeSnippet _ _ => True
  | CreateTestCase id _ _ => testCases this !! id = None
  | CreateDocumentation id _ _ => documentations this !! id = None
  | CreateChatMessage id _ _ => chatMessages this !! id = None
  end.

(** An update that gives neither [id] nor [createdAt]. *)
Definition keeps_stamp (op : Operation) : Prop :=
  match op with
  | UpdateCodeSnippet _ updates =>
      PartialCodeSnippet.id updates = None
      /\ PartialCodeSnippet.createdAt updates = None
  | _ => True
  end.

End Storage.


(** ** [server/routes.ts]

    A handler runs in a world: the store, the number of records created so
    far, and the calls made to the extractor and to the orchestration
    service, in order.  The environment answers: the [n]-th
    [randomUUID()] and [new Date()], what pdf.js makes of a buffer, and
    what the language model replies.  [upload.single('pdf')] (multer) runs
    before the upload handler and hands it [req.file]. *)

Module Routes.

Import Storage PDFProcessor OpenAI.

Definition DEFAULT_USER_ID : string := "default-user".

Record Environment : Type := mk_Environment
  { randomUUID : nat -> string;
    newDate : nat -> Z;
    pdfjs : Buffer -> Exn (list (list (option string)));
    classification : string -> Completion ClassificationJSON.t;
    testGeneration :
      string -> option string -> option string -> Completion TestGenerationJSON.t }.

Inductive Call : Type :=
| ExtractText (buffer : Buffer)
| ClassifyRequirements (text : string)
| GenerateTestCases (code : string) (framework inputType : option string).

Record World : Type := mk_World
  { store : MemStorage.t;
    created : nat;
    calls : list Call }.

(** A computation in a world that may throw. *)
Definition M (A : Type) : Type := World -> Exn A * World.

Definition ret {A} (a : A) : M A := fun w => (Ok a, w).

Definition bind {A B} (m : M A) (k : A -> M B) : M B :=
  fun w =>
    match m w with
    | (Ok a, w') => k a w'
    | (Throw message, w') => (Throw message, w')
    end.

Notation "x <- m ;; k" := (bind m (fun x => k))
  (at level 100, m at next level, right associativity).

(** [await service.method(...)]: the call is recorded, its outcome is the
    environment's. *)
Definition await {A} (call : Call) (outcome : Exn A) : M A :=
  fun w => (outcome, mk_World (store w) (created w) (calls w ++ [call])).

(** [await storage.createX(insert)] *)
Definition create {I A} (env : Environment)
    (method : string -> Z -> I -> MemStorage.t -> A * MemStorage.t) (insert : I) : M A :=
  fun w =>
    let r := method (randomUUID env (created w)) (newDate env (created w))
                    insert (store w) in
    (Ok (fst r), mk_World (snd r) (S (created w)) (calls w)).

(** [const out = []; for (const item of items) { out.push(await f(item)) }] *)
Fixpoint for_of {A B} (f : A -> M B) (items : list A) : M (list B) :=
  match items with
  | [] => ret []
  | item :: items' =>
      b <- f item ;;
      bs <- for_of f items' ;;
      ret (b :: bs)
  end.

Module TestStatistics.
Record t : Type := mk
  { total : Z;
    positive : Z;
    negative : Z }.
End TestStatistics.

Inductive Body : Type :=
| ErrorBody (error : string)
| UploadBody (document : Document.t) (requirements : list Requirement.t)
             (statistics : gmap string Z) (extractedText : string)
| TestsBody (testCase : TestCase.t) (statistics : TestStatistics.t).

Record Response : Type := mk_Response
  { status : Z;
    body : Body }.

(** [res.json(body)] and [res.status(code).json({ error })] *)
Definition json (b : Body) : Response := mk_Response 200 b.

Definition error (code : Z) (message : string) : Response :=
  mk_Response code (ErrorBody message).

(** [try { ... } catch (error) { res.status(500).json({ error: error.message }) }] *)
Definition try_catch (m : M Response) : World -> Response * World :=
  fun w =>
    match m w with
    | (Ok response, w') => (response, w')
    | (Throw message, w') => (error 500 message, w')
    end.

(** [req.file], as multer's memory storage fills it. *)
Module File.
Record t : Type := mk
  { filename : option string;
    buffer : Buffer }.
End File.

(** [POST /api/requirements/upload] *)
Definition post_requirements_upload (env : Environment) (file : option File.t)
  : World -> Response * World :=
  match file with
  | None => fun w => (error 400 "No PDF file uploaded", w)
  | Some file =>
      let filename := File.filename file in
      let buffer := File.buffer file in
      if negb (validatePDF buffer) then
        fun w => (error 400 "Invalid PDF file", w)
      else if negb (isFileSizeValid buffer None) then
        fun w => (error 400 "File size exceeds 10MB limit", w)
      else
        try_catch (
          extracted <- await (ExtractText buffer) (extractText (pdfjs env buffer)) ;;
          let text := PDFProcessingResult.text extracted in
          document <- create env createDocument
            {| InsertDocument.userId := Val DEFAULT_USER_ID;
               InsertDocument.filename := string_or filename "uploaded.pdf";
               InsertDocument.content := text |} ;;
          classificationResult <-
            await (ClassifyRequirements text)
                  (classifyRequirements text (classification env text)) ;;
          requirements <-
            for_of (fun item =>
                      create env createRequirement
                        {| InsertRequirement.documentId := Val (Document.id document);
                           InsertRequirement.userId := Val DEFAULT_USER_ID;
                           InsertRequirement.text := ClassificationItem.text item;
                           InsertRequirement.phase := ClassificationItem.phase item;
                           InsertRequirement.confidence := ClassificationItem.confidence item;
                           InsertRequirement.userStory :=
                             Val (ClassificationItem.userStory item) |})
                   (ClassificationResult.requirements classificationResult) ;;
          ret (json (UploadBody document requirements
                       (ClassificationResult.statistics classificationResult)
                       (String.substring 0 500 text +:+ "...")))
        )
  end.

(** [req.body] of [POST /api/tests/generate] *)
Module TestsRequest.
Record t : Type := mk
  { code : option string;
    framework : option string;
    inputType : option string }.
End TestsRequest.

(** [POST /api/tests/generate] *)
Definition post_tests_generate (env : Environment) (body : TestsRequest.t)
  : World -> Response * World :=
  let framework := TestsRequest.framework body in
  let inputType := TestsRequest.inputType body in
  match TestsRequest.code body with
  | None => fun w => (error 400 "Code or requirements are required", w)
  | Some code =>
      if negb (truthy_string code) then
        fun w => (error 400 "Code or requirements are required", w)
      else
        try_catch (
          testResult <-
            await (GenerateTestCases code framework inputType)
                  (generateTestCases code framework inputType
                     (testGeneration env code framework inputType)) ;;
          testCase <- create env createTestCase
            {| InsertTestCase.userId := Val DEFAULT_USER_ID;
               InsertTestCase.codeSnippetId := Undefined;
               InsertTestCase.framework := string_or framework "unittest";
               InsertTestCase.testCode := TestGenerationResult.testCode testResult;
               InsertTestCase.coverage := Val (TestGenerationResult.coverage testResult);
               InsertTestCase.totalTests :=
                 Val (TestGenerationResult.totalTests testResult) |} ;;
          ret (json (TestsBody testCase
                       {| TestStatistics.total := TestGenerationResult.totalTests testResult;
                          TestStatistics.positive :=
                            TestGenerationResult.positiveTests testResult;
                          TestStatistics.negative :=
                            TestGenerationResult.negativeTests testResult |}))
        )
  end.

End Routes.


(** * Vocabulary of the properties *)

Import OpenAI PDFProcessor Storage Routes.
Import MemStorage.

(** The number of entries of [requirements] whose [phase] is [l]. *)
Definition phase_count (l : string) (requirements : list ClassificationItem.t) : Z :=
  Z.of_nat (length (filter (fun req => ClassificationItem.phase req = l) requirements)).

(** The default-substitution reading of [fixBugs]: the model's [fixedCode]
    whenever the response has one, the input code when it has none. *)
Definition fixedCode_present_or_input (code : string) (language : option string)
    (result : BugFixJSON.t) : Prop :=
  forall r, fixBugs code language (Parsed result) = Ok r ->
    match BugFixJSON.fixedCode result with
    | Some fixed => BugFixResult.fixedCode r = fixed
    | None => BugFixResult.fixedCode r = code
    end.

(** The reading of the test-generation scenario as a law of the route:
    whenever it answers 200 with test statistics, the total is the sum of
    the positive and the negative count. *)
Definition total_is_positive_plus_negative (env : Environment)
    (body : TestsRequest.t) (w : World) : Prop :=
  forall testCase statistics,
    fst (post_tests_generate env body w)
    = mk_Response 200 (TestsBody testCase statistics) ->
    TestStatistics.total statistics
    = TestStatistics.positive statistics + TestStatistics.negative statistics.

(** The three counts of a test-generation response as the route reports
    them: [result.totalTests || 0] and so on. *)
Definition model_counts (result : TestGenerationJSON.t) : TestStatistics.t :=
  {| TestStatistics.total := number_or (TestGenerationJSON.totalTests result) 0;
     TestStatistics.positive := number_or (TestGenerationJSON.positiveTests result) 0;
     TestStatistics.negative := number_or (TestGenerationJSON.negativeTests result) 0 |}.

(** An operation leaves the identifier and the creation stamp of every
    stored record as they are. *)
Definition stamps_unchanged (op : Operation) (this : MemStorage.t) : Prop :=
  forall kind key s,
    stamp kind this key = Some s -> stamp kind (apply op this) key = Some s.

(** A pending UTF-8 sequence: [r] continuation bytes are still awaited,
    and the code point under construction cannot end below U+0080. *)
Definition pending (st : utf8_state) : Prop :=
  exists r : N,
    (1 <= r <= 3)%N
    /\ bytes_needed st = (bytes_seen st + r)%N
    /\ ((128 <= code_point st * 64 ^ r)%N
        \/ ((2 <= r)%N /\ (0x90 <= lower_boundary st)%N)).

(** A 4xx answer. *)
Definition client_error (r : Response) : Prop := 400 <= status r < 500.

(** The upload handler turns [file] down before anything is done with it:
    the answer is a 4xx, and the world after the handler is the world
    before it; in particular no Document is added to the store and no
    call, to [extractText] or to the model, is made. *)
Definition rejected_untouched (env : Environment) (file : File.t) (w : World) : Prop :=
  client_error (fst (post_requirements_upload env (Some file) w))
  /\ snd (post_requirements_upload env (Some file) w) = w
  /\ documents (store (snd (post_requirements_upload env (Some file) w)))
     = documents (store w)
  /\ calls (snd (post_requirements_upload env (Some file) w)) = calls w.

(** * Sample inputs *)

(** An environment whose model answers the classification prompt with one
    requirement labelled ["Maintenance"] and one labelled ["Design"], and
    the test-generation prompt with 8 tests, 5 positive and 2 negative. *)
Definition sample_uuid (n : nat) : string :=
  match n with
  | 0%nat => "7f9c0e1a-0000"
  | 1%nat => "7f9c0e1a-0001"
  | 2%nat => "7f9c0e1a-0002"
  | _ => "7f9c0e1a-ffff"
  end.

Definition sample_items : list ClassificationItem.t :=
  [ ClassificationItem.mk "The service is patched every month." "Maintenance" 90
      "As an operator, I want monthly patches.";
    ClassificationItem.mk "The layout follows the style guide." "Design" 80
      "As a user, I want a consistent layout." ].

Definition sample_env : Environment :=
  {| randomUUID := sample_uuid;
     newDate := fun n => 1700000000000 + Z.of_nat n;
     pdfjs := fun _ => Ok [[Some "The service is patched every month.";
                            None;
                            Some "The layout follows the style guide."]];
     classification := fun _ =>
       Parsed (ClassificationJSON.mk (Some sample_items) None);
     testGeneration := fun _ _ _ =>
       Parsed (TestGenerationJSON.mk (Some "def test_add(): assert add(1, 2) == 3")
                 (Some 95) (Some 8) (Some 5) (Some 2)) |}.

(** A world right after start-up: the store of [new MemStorage()]. *)
Definition sample_world : World := mk_World (constructor 1700000000000) 0 [].

(** A PDF upload, as multer's memory storage hands it over: the bytes
    ["%PDF-1.4"]. *)
Definition sample_pdf : Buffer :=
  [Byte.x25; Byte.x50; Byte.x44; Byte.x46; Byte.x2d; Byte.x31; Byte.x2e; Byte.x34].

Definition sample_file : File.t := File.mk None sample_pdf.

(** An upload that is not a PDF: the bytes ["<html>"]. *)
Definition file_html : File.t :=
  File.mk (Some "index.html")
    [Byte.x3c; Byte.x68; Byte.x74; Byte.x6d; Byte.x6c; Byte.x3e].

(** A buffer of [n] zero bytes, and an upload of exactly 10 MiB. *)
Definition buffer_of_size (n : Z) : Buffer := replicate (Z.to_nat n) Byte.x00.

Definition file_10MiB : File.t :=
  File.mk (Some "requirements.pdf") (buffer_of_size (10 * 1024 * 1024)).

Definition sample_tests_request : TestsRequest.t :=
  TestsRequest.mk (Some "def add(a,b): return a+b") (Some "pytest") None.

(** A store holding the default user and one code snippet. *)
Definition sample_snippet : InsertCodeSnippet.t :=
  {| InsertCodeSnippet.userId := Val "default-user";
     InsertCodeSnippet.title := "Generated python Code";
     InsertCodeSnippet.description := Undefined;
     InsertCodeSnippet.language := "python";
     InsertCodeSnippet.code := "reverse a string";
     InsertCodeSnippet.generatedCode := Null;
     InsertCodeSnippet.type := "generated" |}.

Definition sample_store : MemStorage.t :=
  snd (createCodeSnippet "7f9c0e1a-0000" 1700000000001 sample_snippet
         (constructor 1700000000000)).

(** [{ id: "another-id" }] and [{ generatedCode: "s[::-1]" }] as
    [Partial<CodeSnippet>]. *)
Definition id_update : PartialCodeSnippet.t :=
  PartialCodeSnippet.mk (Some "another-id") None None None None None None None None.

Definition code_update : PartialCodeSnippet.t :=
  PartialCodeSnippet.mk None None None None None None (Some (Some "s[::-1]")) None None.

(** * The rest of the server

    The operations of the orchestration service, the store queries and the
    routes that the modules above leave out, and the upload guard of the
    client. *)

(** ** JavaScript idioms for the properties of a request body *)

Module Body.

(** [!x] for a string property of [req.body] *)
Definition falsy (x : Optional string) : bool :=
  match x with
  | Val s => negb (truthy_string s)
  | Undefined | Null => true
  end.

(** [x || d] *)
Definition or_else (x : Optional string) (d : string) : string :=
  match x with
  | Val s => if truthy_string s then s else d
  | Undefined | Null => d
  end.

(** The text of [x] in a template literal. *)
Definition template (x : Optional string) : string :=
  match x with
  | Val s => s
  | Undefined => "undefined"
  | Null => "null"
  end.

(** The string behind a truthy [x]. *)
Definition get (x : Optional string) : string :=
  match x with
  | Val s => s
  | Undefined | Null => ""
  end.

End Body.

(** ** [server/services/openai.ts], the other operations *)

Module OpenAIService.

Module CodeGenerationJSON.
Record t : Type := mk
  { code : option string;
    suggestions : option (list string) }.
End CodeGenerationJSON.

Module CodeGenerationResult.
Record t : Type := mk
  { code : string;
    suggestions : list string }.
End CodeGenerationResult.

(** [generateCode(description, language = 'python', framework?)]: the
    three arguments only enter the prompt. *)
Definition generateCode (description : string) (language framework : Optional string)
    (completion : Completion CodeGenerationJSON.t)
  : Exn CodeGenerationResult.t :=
  match completion with
  | ApiError message | SyntaxError message =>
      Throw ("Code generation failed: " +:+ message)
  | Parsed result =>
      Ok {| CodeGenerationResult.code := string_or (CodeGenerationJSON.code result) "";
            CodeGenerationResult.suggestions :=
              array_or (CodeGenerationJSON.suggestions result) [] |}
  end.

Module DocumentationJSON.
Record t : Type := mk
  { overview : option string;
    features : option (list string);
    methods : option (list (string * string));
    example : option string }.
End DocumentationJSON.

Module DocumentationResult.
Record t : Type := mk
  { overview : string;
    features : list string;
    methods : list (string * string);
    example : string }.
End DocumentationResult.

(** [summarizeCode(code, style = 'technical')]: the two arguments only
    enter the prompt.  A method is its [name] and its [description]. *)
Definition summarizeCode (code : string) (style : Optional string)
    (completion : Completion DocumentationJSON.t)
  : Exn DocumentationResult.t :=
  match completion with
  | ApiError message | SyntaxError message =>
      Throw ("Code summarization failed: " +:+ message)
  | Parsed result =>
      Ok {| DocumentationResult.overview :=
              string_or (DocumentationJSON.overview result) "";
            DocumentationResult.features :=
              array_or (DocumentationJSON.features result) [];
            DocumentationResult.methods :=
              array_or (DocumentationJSON.methods result) [];
            DocumentationResult.example :=
              string_or (DocumentationJSON.example result) "" |}
  end.

Definition CHAT_FALLBACK : string :=
  "I'm sorry, I couldn't process your request. Please try again.".

(** [chatResponse(message)]: the reply is free text, nothing is parsed.
    The environment gives the [content] of the first choice, which may be
    [null], or the failure of the request. *)
Definition chatResponse (message : string) (content : Exn (option string))
  : Exn string :=
  match content with
  | Throw message => Throw ("Chat response failed: " +:+ message)
  | Ok content => Ok (string_or content CHAT_FALLBACK)
  end.

End OpenAIService.

(** ** [server/storage.ts], the queries

    [Array.from(map.values())] lists the values of a [Map] in the order
    they were inserted.  A [gmap] keeps no insertion order: [values] lists
    them in the order of the map itself, and what is proved of a listing
    below does not depend on its order. *)

Module Queries.

Definition values {A : Type} (m : gmap string A) : list A := (map_to_list m).*2.

(** [array.find(p)] *)
Definition find {A : Type} (p : A -> Prop) `{forall a, Decision (p a)} (l : list A)
  : option A :=
  head (filter p l).

Definition getUserByUsername (username : string) (this : MemStorage.t) : option User.t :=
  find (fun user => User.username user = username) (values (users this)).

Definition getDocumentsByUserId (userId : string) (this : MemStorage.t)
  : list Document.t :=
  filter (fun doc => Document.userId doc = Some userId) (values (documents this)).

Definition getRequirementsByDocumentId (documentId : string) (this : MemStorage.t)
  : list Requirement.t :=
  filter (fun req => Requirement.documentId req = Some documentId)
         (values (requirements this)).

Definition getRequirementsByUserId (userId : string) (this : MemStorage.t)
  : list Requirement.t :=
  filter (fun req => Requirement.userId req = Some userId) (values (requirements this)).

Definition getCodeSnippetsByUserId (userId : string) (this : MemStorage.t)
  : list CodeSnippet.t :=
  filter (fun snippet => CodeSnippet.userId snippet = Some userId)
         (values (codeSnippets this)).

Definition getTestCasesByUserId (userId : string) (this : MemStorage.t)
  : list TestCase.t :=
  filter (fun test => TestCase.userId test = Some userId) (values (testCases this)).

Definition getTestCasesByCodeSnippetId (codeSnippetId : string) (this : MemStorage.t)
  : list TestCase.t :=
  filter (fun test => TestCase.codeSnippetId test = Some codeSnippetId)
         (values (testCases this)).

Definition getDocumentationsByUserId (userId : string) (this : MemStorage.t)
  : list Documentation.t :=
  filter (fun doc => Documentation.userId doc = Some userId)
         (values (documentations this)).

Definition getDocumentationsByCodeSnippetId (codeSnippetId : string)
    (this : MemStorage.t) : list Documentation.t :=
  filter (fun doc => Documentation.codeSnippetId doc = Some codeSnippetId)
         (values (documentations this)).

Definition getChatMessagesByUserId (userId : string) (this : MemStorage.t)
  : list ChatMessage.t :=
  filter (fun msg => ChatMessage.userId msg = Some userId) (values (chatMessages this)).

End Queries.

(** ** The store, record by record

    A record of any kind, the record a key holds in the partition of a
    kind, the place an operation writes to, and the runs of operations. *)

Module Records.

Inductive Any : Type :=
| AUser (r : User.t)
| ADocument (r : Document.t)
| ARequirement (r : Requirement.t)
| ACodeSnippet (r : CodeSnippet.t)
| ATestCase (r : TestCase.t)
| ADocumentation (r : Documentation.t)
| AChatMessage (r : ChatMessage.t).

Definition record (kind : Kind) (this : MemStorage.t) (key : string) : option Any :=
  match kind with
  | KUser => AUser <$> users this !! key
  | KDocument => ADocument <$> documents this !! key
  | KRequirement => ARequirement <$> requirements this !! key
  | KCodeSnippet => ACodeSnippet <$> codeSnippets this !! key
  | KTestCase => ATestCase <$> testCases this !! key
  | KDocumentation => ADocumentation <$> documentations this !! key
  | KChatMessage => AChatMessage <$> chatMessages this !! key
  end.

(** The partition and the key an operation writes to. *)
Definition target (op : Operation) : Kind * string :=
  match op with
  | CreateUser id _ _ => (KUser, id)
  | CreateDocument id _ _ => (KDocument, id)
  | CreateRequirement id _ _ => (KRequirement, id)
  | CreateCodeSnippet id _ _ => (KCodeSnippet, id)
  | UpdateCodeSnippet id _ => (KCodeSnippet, id)
  | CreateTestCase id _ _ => (KTestCase, id)
  | CreateDocumentation id _ _ => (KDocumentation, id)
  | CreateChatMessage id _ _ => (KChatMessage, id)
  end.

(** The operations of [ops], one after the other. *)
Definition run (ops : list Operation) (this : MemStorage.t) : MemStorage.t :=
  foldl (fun this op => apply op this) this ops.

(** An update that does not give a new [id] to the snippet it updates. *)
Definition keeps_id (op : Operation) : Prop :=
  match op with
  | UpdateCodeSnippet id updates =>
      PartialCodeSnippet.id updates = None \/ PartialCodeSnippet.id updates = Some id
  | _ => True
  end.

(** Every record is stored under its own [id]. *)
Definition keyed_by_id (this : MemStorage.t) : Prop :=
  forall kind key s, stamp kind this key = Some s -> fst s = key.

End Records.

(** ** [server/routes.ts], the other routes

    The routes below answer with a body of their own; an answer is its
    status and either the body or [{ error }].  The calls they make to the
    orchestration service are not listed in the world's [calls].  A
    property of a request body is missing, [null] or a string, as the
    client sends it; a body that carries a number or an object in its
    place is outside the requests described here. *)

Module Endpoints.

Import OpenAIService Queries.

(** What the language model replies to the prompts of the operations the
    environment of [Routes] does not cover. *)
Record Models : Type := mk_Models
  { codeGeneration :
      string -> Optional string -> Optional string -> Completion CodeGenerationJSON.t;
    bugFix : string -> Optional string -> Completion BugFixJSON.t;
    summarization : string -> Optional string -> Completion DocumentationJSON.t;
    chat : string -> Exn (option string) }.

Inductive Payload (A : Type) : Type :=
| Json (a : A)
| Error (error : string).
Arguments Json {A} a.
Arguments Error {A} error.

Module Reply.
Record t (A : Type) : Type := mk
  { status : Z;
    payload : Payload A }.
Arguments mk {A} status payload.
Arguments status {A} _.
Arguments payload {A} _.
End Reply.

(** [return res.status(400).json({ error: message })] *)
Definition reject {A : Type} (message : string) : World -> Reply.t A * World :=
  fun w => (Reply.mk 400 (Error message), w).

(** [try { ...; res.json(body) } catch (error) {
    res.status(500).json({ error: error.message }) }] *)
Definition respond {A : Type} (m : M A) : World -> Reply.t A * World :=
  fun w =>
    match m w with
    | (Ok a, w') => (Reply.mk 200 (Json a), w')
    | (Throw message, w') => (Reply.mk 500 (Error message), w')
    end.

(** [await openaiService.method(...)] *)
Definition service {A : Type} (outcome : Exn A) : M A := fun w => (outcome, w).

Module GenerateRequest.
Record t : Type := mk
  { language : Optional string;
    framework : Optional string;
    description : Optional string }.
End GenerateRequest.

Module GenerateAnswer.
Record t : Type := mk
  { codeSnippet : CodeSnippet.t;
    suggestions : list string }.
End GenerateAnswer.

(** [POST /api/code/generate] *)
Definition post_code_generate (env : Environment) (models : Models)
    (body : GenerateRequest.t) : World -> Reply.t GenerateAnswer.t * World :=
  let language := GenerateRequest.language body in
  let framework := GenerateRequest.framework body in
  if Body.falsy (GenerateRequest.description body) then
    reject "Description is required"
  else
    let description := Body.get (GenerateRequest.description body) in
    respond (
      codeResult <-
        service (generateCode description language framework
                   (codeGeneration models description language framework)) ;;
      codeSnippet <- create env createCodeSnippet
        {| InsertCodeSnippet.userId := Val DEFAULT_USER_ID;
           InsertCodeSnippet.title := "Generated " +:+ Body.template language +:+ " Code";
           InsertCodeSnippet.description := Val description;
           InsertCodeSnippet.language := Body.or_else language "python";
           InsertCodeSnippet.code := description;
           InsertCodeSnippet.generatedCode := Val (CodeGenerationResult.code codeResult);
           InsertCodeSnippet.type := "generated" |} ;;
      ret {| GenerateAnswer.codeSnippet := codeSnippet;
             GenerateAnswer.suggestions := CodeGenerationResult.suggestions codeResult |}
    ).

Module FixRequest.
Record t : Type := mk
  { code : Optional string;
    language : Optional string }.
End FixRequest.

Module FixAnswer.
Record t : Type := mk
  { codeSnippet : CodeSnippet.t;
    issues : list string;
    optimizations : list string }.
End FixAnswer.

(** [POST /api/code/fix] *)
Definition post_code_fix (env : Environment) (models : Models)
    (body : FixRequest.t) : World -> Reply.t FixAnswer.t * World :=
  let language := FixRequest.language body in
  if Body.falsy (FixRequest.code body) then
    reject "Code is required"
  else
    let code := Body.get (FixRequest.code body) in
    respond (
      fixResult <-
        service (fixBugs code (or_null language) (bugFix models code language)) ;;
      codeSnippet <- create env createCodeSnippet
        {| InsertCodeSnippet.userId := Val DEFAULT_USER_ID;
           InsertCodeSnippet.title := "Fixed " +:+ Body.template language +:+ " Code";
           InsertCodeSnippet.description := Val "Bug-fixed and optimized code";
           InsertCodeSnippet.language := Body.or_else language "python";
           InsertCodeSnippet.code := code;
           InsertCodeSnippet.generatedCode := Val (BugFixResult.fixedCode fixResult);
           InsertCodeSnippet.type := "fixed" |} ;;
      ret {| FixAnswer.codeSnippet := codeSnippet;
             FixAnswer.issues := BugFixResult.issues fixResult;
             FixAnswer.optimizations := BugFixResult.optimizations fixResult |}
    ).

Module SummarizeRequest.
Record t : Type := mk
  { code : Optional string;
    style : Optional string }.
End SummarizeRequest.

(** [POST /api/code/summarize]; the body of the answer is
    [{ documentation }]. *)
Definition post_code_summarize (env : Environment) (models : Models)
    (body : SummarizeRequest.t) : World -> Reply.t Documentation.t * World :=
  let style := SummarizeRequest.style body in
  if Body.falsy (SummarizeRequest.code body) then
    reject "Code is required"
  else
    let code := Body.get (SummarizeRequest.code body) in
    respond (
      summaryResult <-
        service (summarizeCode code style (summarization models code style)) ;;
      documentation <- create env createDocumentation
        {| InsertDocumentation.userId := Val DEFAULT_USER_ID;
           InsertDocumentation.codeSnippetId := Undefined;
           InsertDocumentation.style := Body.or_else style "technical";
           InsertDocumentation.overview :=
             Val (DocumentationResult.overview summaryResult);
           InsertDocumentation.features :=
             Val (DocumentationResult.features summaryResult);
           InsertDocumentation.methods :=
             Val (DocumentationResult.methods summaryResult);
           InsertDocumentation.example :=
             Val (DocumentationResult.example summaryResult) |} ;;
      ret documentation
    ).

Module ChatAnswer.
Record t : Type := mk
  { chatMessage : ChatMessage.t;
    response : string }.
End ChatAnswer.

(** [POST /api/chat], on the [message] of the body *)
Definition post_chat (env : Environment) (models : Models)
    (message : Optional string) : World -> Reply.t ChatAnswer.t * World :=
  if Body.falsy message then
    reject "Message is required"
  else
    let message := Body.get message in
    respond (
      response <- service (chatResponse message (chat models message)) ;;
      chatMessage <- create env createChatMessage
        {| InsertChatMessage.userId := Val DEFAULT_USER_ID;
           InsertChatMessage.message := message;
           InsertChatMessage.response := response |} ;;
      ret {| ChatAnswer.chatMessage := chatMessage;
             ChatAnswer.response := response |}
    ).

(** [GET /api/documents], [GET /api/code-snippets], [GET /api/chat-history] *)
Definition get_documents : World -> Reply.t (list Document.t) * World :=
  respond (fun w => (Ok (getDocumentsByUserId DEFAULT_USER_ID (store w)), w)).

Definition get_code_snippets : World -> Reply.t (list CodeSnippet.t) * World :=
  respond (fun w => (Ok (getCodeSnippetsByUserId DEFAULT_USER_ID (store w)), w)).

Definition get_chat_history : World -> Reply.t (list ChatMessage.t) * World :=
  respond (fun w => (Ok (getChatMessagesByUserId DEFAULT_USER_ID (store w)), w)).

(** The [fileFilter] of the multer configuration. *)
Definition fileFilter (mimetype : string) : Exn bool :=
  if bool_decide (mimetype = "application/pdf") then Ok true
  else Throw "Only PDF files are allowed".

End Endpoints.

(** ** [server/routes.ts], the upload middleware

    [upload.single('pdf')] runs before the upload handler.  For the part
    named [pdf] multer asks the [fileFilter], then reads the part into
    memory; as soon as it has read more than [limits.fileSize] bytes it
    gives up with the MulterError ["File too large"].  An error goes to
    [next(err)]: the handler is not run, and the answer is the one the
    error handling of the server gives. *)

Module Multer.

Import Endpoints.

(** The part of the multipart body named [pdf]. *)
Module Part.
Record t : Type := mk
  { originalname : string;
    mimetype : string;
    content : Buffer }.
End Part.





End Multer.

(** ** The requirements module of the client *)

Module Client.

(** What [handleFileUpload(file)] does with a file of the given [type] and
    [size]: one of the two toasts, or [uploadMutation.mutate(file)]. *)
Inductive Handled : Type :=
| InvalidFileType
| FileTooLarge
| Mutate.

Definition handleFileUpload (type : string) (size : Z) : Handled :=
  if bool_decide (type <> "application/pdf") then InvalidFileType
  else if 10 * 1024 * 1024 <? size then FileTooLarge
  else Mutate.

End Client.

(** ** Vocabulary of the further properties *)

Import OpenAIService Queries Records Endpoints.

(** The labels of the five phases, and the sum of the five tallies of a
    statistics object. *)
Definition labels : list string :=
  map label [Requirements; Design; Development; Testing; Deployment].

Definition tally_total (statistics : gmap string Z) : Z :=
  foldr (fun l n => default 0 (statistics !! l) + n) 0 labels.

(** The number of entries of [requirements] whose phase is one of the five
    labels. *)
Definition labelled_count (requirements : list ClassificationItem.t) : Z :=
  Z.of_nat (length (filter (fun req => ClassificationItem.phase req ∈ labels)
                           requirements)).


(** A completion that parsed. *)
Definition parsed {A : Type} (completion : Completion A) : Prop :=
  exists result, completion = Parsed result.

(** The head and the last character of a string, and the strings that
    neither start nor end with white space. *)
Definition characters (s : string) : list ascii := String.list_ascii_of_string s.

Definition trimmed (s : string) : Prop :=
  (forall a, head (characters s) = Some a -> is_white_space a = false)
  /\ (forall a, last (characters s) = Some a -> is_white_space a = false).

(** An item of a page that carries no text. *)
Definition blank (item : option string) : Prop := item = None \/ item = Some "".

(** An upload the handler lets through its two guards. *)
Definition acceptable (file : option File.t) : bool :=
  match file with
  | Some file =>
      validatePDF (File.buffer file) && isFileSizeValid (File.buffer file) None
  | None => false
  end.

(** The Document the upload handler creates for [file] in world [w], given
    the extracted [text], with the store after its creation. *)
Definition uploaded_document (env : Environment) (file : File.t) (text : string)
    (w : World) : Document.t * MemStorage.t :=
  createDocument (randomUUID env (created w)) (newDate env (created w))
    {| InsertDocument.userId := Val DEFAULT_USER_ID;
       InsertDocument.filename := string_or (File.filename file) "uploaded.pdf";
       InsertDocument.content := text |}
    (store w).

(** A stored requirement made for [item] under [document]. *)
Definition made_for (document : Document.t) (item : ClassificationItem.t)
    (req : Requirement.t) : Prop :=
  Requirement.documentId req = Some (Document.id document)
  /\ Requirement.userId req = Some DEFAULT_USER_ID
  /\ Requirement.text req = ClassificationItem.text item
  /\ Requirement.phase req = ClassificationItem.phase item
  /\ Requirement.confidence req = ClassificationItem.confidence item
  /\ Requirement.userStory req = Some (ClassificationItem.userStory item).

(** The number of stored requirements whose [phase] is [l]. *)
Definition stored_phase_count (l : string) (requirements : list Requirement.t) : Z :=
  Z.of_nat (length (filter (fun req => Requirement.phase req = l) requirements)).

(** ** Further sample inputs *)

Definition sample_test_case : InsertTestCase.t :=
  InsertTestCase.mk Null (Val "7f9c0e1a-0000") "pytest" "assert True"
    Undefined Undefined.

(** [{}] as [Partial<CodeSnippet>] *)
Definition empty_updates : PartialCodeSnippet.t :=
  PartialCodeSnippet.mk None None None None None None None None None.

(** A document of the default user, and one without an owner. *)
Definition sample_document : InsertDocument.t :=
  InsertDocument.mk (Val "default-user") "requirements.pdf" "The service is patched.".

Definition orphan_document : InsertDocument.t :=
  InsertDocument.mk Undefined "notes.pdf" "Nobody owns these notes.".

(** An environment in which pdf.js fails on every buffer, and one in which
    the model cannot be reached for the classification. *)
Definition env_pdfjs_fails : Environment :=
  {| randomUUID := sample_uuid;
     newDate := fun n => 1700000000000 + Z.of_nat n;
     pdfjs := fun _ => Throw "Invalid PDF structure.";
     classification := classification sample_env;
     testGeneration := testGeneration sample_env |}.

Definition env_model_fails : Environment :=
  {| randomUUID := sample_uuid;
     newDate := fun n => 1700000000000 + Z.of_nat n;
     pdfjs := pdfjs sample_env;
     classification := fun _ => ApiError "Connection error.";
     testGeneration := fun _ _ _ => ApiError "Connection error." |}.


(** A model that answers every prompt of the other routes with [{}], and
    the chat with no content. *)
Definition silent_models : Models :=
  {| codeGeneration := fun _ _ _ => Parsed (CodeGenerationJSON.mk None None);
     bugFix := fun _ _ => Parsed (BugFixJSON.mk None None None);
     summarization := fun _ _ => Parsed (DocumentationJSON.mk None None None None);
     chat := fun _ => Ok None |}.

Definition sample_fix_request : FixRequest.t :=
  FixRequest.mk (Val "def add(a,b): return a-b") Undefined.

(** * Properties *)

(** ** The orchestration service *)

Lemma zero_statistics_label (p : Phase) : zero_statistics !! label p = Some 0.
Proof. destruct p; reflexivity. Qed.

Lemma tally_lookup (req : ClassificationItem.t) (statistics : gmap string Z) (l : string) :
  is_Some (statistics !! l) ->
  tally statistics req !! l
  = (fun n => n + phase_count l [req]) <$> statistics !! l.
Proof.
  intros [n Hn]. unfold tally, hasOwnProperty, increment, phase_count.
  destruct (decide (ClassificationItem.phase req = l)) as [Heq | Hne].
  - rewrite filter_cons_True by done. rewrite Heq.
    rewrite bool_decide_eq_true_2 by eauto.
    by rewrite lookup_alter_eq, Hn.
  - rewrite filter_cons_False by done. rewrite Hn. cbn.
    case_bool_decide; [rewrite lookup_alter_ne by done |]; rewrite Hn; f_equal; lia.
Qed.

Lemma phase_count_cons (l : string) (req : ClassificationItem.t)
    (reqs : list ClassificationItem.t) :
  phase_count l (req :: reqs) = phase_count l [req] + phase_count l reqs.
Proof.
  unfold phase_count. rewrite !filter_cons, filter_nil.
  case_decide; cbn [length]; lia.
Qed.

Lemma foldl_tally_lookup (reqs : list ClassificationItem.t) :
  forall (statistics : gmap string Z) (l : string) (n : Z),
    statistics !! l = Some n ->
    foldl tally statistics reqs !! l = Some (n + phase_count l reqs).
Proof.
  induction reqs as [| req reqs IH]; intros statistics l n Hn; cbn [foldl].
  - rewrite Hn. unfold phase_count. cbn. f_equal. lia.
  - rewrite (IH _ l (n + phase_count l [req])).
    + rewrite (phase_count_cons l req reqs). f_equal. lia.
    + rewrite tally_lookup by eauto. by rewrite Hn.
Qed.

(** C1: for every parsed classification response, [classifyRequirements]
    returns; for each of the five phase labels the tally it returns is the
    number of returned requirements carrying that label; and the result is
    the same whatever statistics object the model sent. *)
Theorem classifyRequirements_tally_recomputed
    (text : string) (result : ClassificationJSON.t) :
  exists r,
    classifyRequirements text (Parsed result) = Ok r
    /\ (forall p : Phase,
          ClassificationResult.statistics r !! label p
          = Some (phase_count (label p) (ClassificationResult.requirements r)))
    /\ (forall modelStatistics : option (gmap string Z),
          classifyRequirements text
            (Parsed (ClassificationJSON.mk
                       (ClassificationJSON.requirements result) modelStatistics))
          = Ok r).
Proof.
  eexists. split; [reflexivity |]. split; [| reflexivity].
  intros p. cbn. destruct (ClassificationJSON.requirements result) as [reqs |]; cbn.
  - rewrite (foldl_tally_lookup reqs _ _ 0 (zero_statistics_label p)). f_equal.
  - apply zero_statistics_label.
Qed.

(** C2, counterexample: the model supplies the empty string as
    [fixedCode]; [fixBugs] returns the input code, not what the model
    supplied. *)
Lemma fixBugs_empty_fixedCode_replaced :
  ~ fixedCode_present_or_input "x = 1" None (BugFixJSON.mk (Some "") None None).
Proof.
  intros H. specialize (H _ eq_refl). cbn in H. discriminate H.
Qed.

(** C2, amended: for every input code and every parsed model response,
    [fixBugs] returns, and its [fixedCode] is the model's corrected code
    when the response has a non-empty one, and the input code when the
    property is missing or is the empty string. *)
Theorem fixBugs_fixedCode_default
    (code : string) (language : option string) (result : BugFixJSON.t) :
  exists r,
    fixBugs code language (Parsed result) = Ok r
    /\ BugFixResult.fixedCode r
       = match BugFixJSON.fixedCode result with
         | Some (String a fixed) => String a fixed
         | Some EmptyString | None => code
         end.
Proof.
  eexists. split; [reflexivity |]. cbn.
  by destruct (BugFixJSON.fixedCode result) as [[| a fixed] |].
Qed.

(** ** The test-generation route *)

(** C3, counterexample: the model answers 8 tests, 5 positive and 2
    negative; the route answers 200 with exactly these counts, and
    8 is not 5 + 2. *)
Lemma post_tests_generate_total_not_sum :
  ~ total_is_positive_plus_negative sample_env sample_tests_request sample_world.
Proof.
  intros H. specialize (H _ _ eq_refl). vm_compute in H. discriminate H.
Qed.

(** C3, amended: every 200 answer of [POST /api/tests/generate] carries
    as [total], [positive] and [negative] the model's [totalTests],
    [positiveTests] and [negativeTests], each replaced by 0 when missing:
    the three are copied, so [total = positive + negative] holds when, and
    only when, the model's counts satisfy it. *)
Theorem post_tests_generate_statistics_from_model
    (env : Environment) (body : TestsRequest.t) (w : World) :
  status (fst (post_tests_generate env body w)) = 200 ->
  exists code result testCase,
    TestsRequest.code body = Some code
    /\ testGeneration env code (TestsRequest.framework body) (TestsRequest.inputType body)
       = Parsed result
    /\ Routes.body (fst (post_tests_generate env body w))
       = TestsBody testCase (model_counts result).
Proof.
  unfold post_tests_generate.
  destruct (TestsRequest.code body) as [code |]; [| discriminate].
  destruct (truthy_string code); cbn [negb]; [| discriminate].
  unfold try_catch, bind, await, create, ret.
  destruct (testGeneration env code _ _) as [message | message | result] eqn:Hgen;
    cbn; try discriminate.
  intros _. exists code, result. eexists. by repeat split.
Qed.

(** The sample request is answered 200. *)
Lemma post_tests_generate_statistics_from_model_witness :
  exists code result testCase,
    TestsRequest.code sample_tests_request = Some code
    /\ testGeneration sample_env code (TestsRequest.framework sample_tests_request)
         (TestsRequest.inputType sample_tests_request)
       = Parsed result
    /\ Routes.body (fst (post_tests_generate sample_env sample_tests_request sample_world))
       = TestsBody testCase (model_counts result).
Proof.
  apply (post_tests_generate_statistics_from_model
           sample_env sample_tests_request sample_world).
  reflexivity.
Defined.

(** ** The store *)

Lemma stamp_insert_fresh {A B : Type} (f : A -> B) (m : gmap string A)
    (id key : string) (x : A) (s : B) :
  m !! id = None ->
  f <$> m !! key = Some s ->
  f <$> <[id := x]> m !! key = Some s.
Proof.
  intros Hid Hkey. rewrite lookup_insert_ne; [done |].
  intros ->. by rewrite Hid in Hkey.
Qed.

Lemma spread_stamp (existing : CodeSnippet.t) (updates : PartialCodeSnippet.t) :
  PartialCodeSnippet.id updates = None ->
  PartialCodeSnippet.createdAt updates = None ->
  CodeSnippet.id (spread existing updates) = CodeSnippet.id existing
  /\ CodeSnippet.createdAt (spread existing updates) = CodeSnippet.createdAt existing.
Proof. unfold spread. cbn. by intros -> ->. Qed.

(** C5, counterexample: an update whose partial fields give an [id]
    replaces the [id] of the stored snippet. *)
Lemma updateCodeSnippet_overwrites_id :
  ~ stamps_unchanged (UpdateCodeSnippet "7f9c0e1a-0000" id_update) sample_store.
Proof.
  intros H.
  specialize (H KCodeSnippet "7f9c0e1a-0000" _ eq_refl).
  vm_compute in H. discriminate H.
Qed.

(** C5, amended: the identifier and the creation stamp of every stored
    record are left unchanged by every create operation that draws an
    identifier not in use, and by [updateCodeSnippet] whenever its partial
    fields give neither [id] nor [createdAt]. *)
Theorem stamps_unchanged_by_operations (op : Operation) (this : MemStorage.t) :
  fresh op this -> keeps_stamp op -> stamps_unchanged op this.
Proof.
  intros Hfresh Hkeeps kind key s.
  destruct op; cbn in Hfresh, Hkeeps;
    try (destruct kind; cbn; solve [done | by apply stamp_insert_fresh]).
  destruct Hkeeps as [Hid Hat]. cbn. unfold updateCodeSnippet.
  destruct (codeSnippets this !! id) as [existing |] eqn:Hex; [| done].
  destruct kind; cbn; try done.
  destruct (decide (id = key)) as [<- | Hne].
  - rewrite lookup_insert_eq, Hex.
    destruct (spread_stamp existing updates Hid Hat) as [Heq_id Heq_at].
    cbn [fmap option_fmap option_map]. by rewrite Heq_id, Heq_at.
  - by rewrite lookup_insert_ne.
Qed.

(** An update that only attaches generated code to the stored snippet. *)
Lemma stamps_unchanged_by_operations_witness :
  stamps_unchanged (UpdateCodeSnippet "7f9c0e1a-0000" code_update) sample_store.
Proof.
  apply (stamps_unchanged_by_operations
           (UpdateCodeSnippet "7f9c0e1a-0000" code_update) sample_store).
  - exact I.
  - split; reflexivity.
Defined.

(** C6: [updateCodeSnippet] on an identifier that is not in the
    code-snippet partition returns nothing and leaves the store, every
    partition of it, as it was. *)
Theorem updateCodeSnippet_absent
    (id : string) (updates : PartialCodeSnippet.t) (this : MemStorage.t) :
  codeSnippets this !! id = None ->
  updateCodeSnippet id updates this = (None, this).
Proof. intros Hid. unfold updateCodeSnippet. by rewrite Hid. Qed.

(** The sample store has no snippet under ["no-such-id"]. *)
Lemma updateCodeSnippet_absent_witness :
  updateCodeSnippet "no-such-id" id_update sample_store = (None, sample_store).
Proof.
  apply (updateCodeSnippet_absent "no-such-id" id_update sample_store).
  reflexivity.
Defined.

(** C7: a create followed by the matching read with the identifier of the
    returned record gives back that very record, for users, documents and
    code snippets; in the record the optional fields are the given values,
    and null where the payload left them out. *)
Theorem create_then_get (id : string) (now : Z) (this : MemStorage.t) :
  (forall i : InsertUser.t,
      getUser (User.id (fst (createUser id now i this))) (snd (createUser id now i this))
      = Some (fst (createUser id now i this)))
  /\ (forall i : InsertDocument.t,
        getDocument (Document.id (fst (createDocument id now i this)))
                    (snd (createDocument id now i this))
        = Some (fst (createDocument id now i this))
        /\ Document.userId (fst (createDocument id now i this))
           = or_null (InsertDocument.userId i))
  /\ (forall i : InsertCodeSnippet.t,
        getCodeSnippet (CodeSnippet.id (fst (createCodeSnippet id now i this)))
                       (snd (createCodeSnippet id now i this))
        = Some (fst (createCodeSnippet id now i this))
        /\ CodeSnippet.userId (fst (createCodeSnippet id now i this))
           = or_null (InsertCodeSnippet.userId i)
        /\ CodeSnippet.description (fst (createCodeSnippet id now i this))
           = or_null (InsertCodeSnippet.description i)
        /\ CodeSnippet.generatedCode (fst (createCodeSnippet id now i this))
           = or_null (InsertCodeSnippet.generatedCode i))
  /\ or_null (@Undefined string) = None.
Proof.
  repeat split; intros; cbn; apply lookup_insert_eq.
Qed.

(** ** The document text extractor *)

Lemma utf8_lead_cases (b : N) :
  ((b <= 0x7F)%N /\ utf8_lead b = (utf8_initial, [b]))
  \/ ((0x80 <= b)%N
      /\ (utf8_lead b = (utf8_initial, [REPLACEMENT_CHARACTER])
          \/ (pending (fst (utf8_lead b)) /\ snd (utf8_lead b) = []))).
Proof.
  unfold utf8_lead.
  destruct (N.leb_spec b 0x7F) as [Hascii | Hhigh]; [by left |].
  right. split; [lia |].
  destruct (N.leb_spec 0xC2 b), (N.leb_spec b 0xDF); cbn [andb].
  1: { right. split; [| done]. exists 1%N. cbn. repeat split; try lia. }
  all: destruct (N.leb_spec 0xE0 b), (N.leb_spec b 0xEF); cbn [andb]; try lia.
  1: { right. split; [| done]. exists 2%N. cbn.
       repeat split; try lia.
       destruct (N.eqb_spec b 0xE0); [right | left]; lia. }
  all: destruct (N.leb_spec 0xF0 b), (N.leb_spec b 0xF4); cbn [andb]; try lia; try by left.
  all: right; split; [| done]; exists 3%N; cbn; repeat split; try lia.
  all: destruct (N.eqb_spec b 0xF0); [right | left]; lia.
Qed.

Lemma utf8_step_pending (st : utf8_state) (b : N) :
  pending st ->
  (exists c out, snd (utf8_step st b) = c :: out /\ (128 <= c)%N)
  \/ (snd (utf8_step st b) = [] /\ pending (fst (utf8_step st b))).
Proof.
  intros (r & Hr & Hneed & Hmin). unfold utf8_step.
  destruct (N.eqb_spec (bytes_needed st) 0) as [Hzero | _]; [lia |].
  destruct (N.ltb_spec b (lower_boundary st)) as [Hlow | Hlow]; cbn [orb].
  { left. eexists _, _. split; [reflexivity |]. unfold REPLACEMENT_CHARACTER. lia. }
  destruct (N.ltb_spec (upper_boundary st) b) as [Hup | Hup].
  { left. eexists _, _. split; [reflexivity |]. unfold REPLACEMENT_CHARACTER. lia. }
  cbn zeta.
  assert (Hcases : r = 1%N \/ r = 2%N \/ r = 3%N) by lia.
  destruct (N.eqb_spec (bytes_seen st + 1) (bytes_needed st)) as [Hlast | Hmore].
  - left. eexists _, _. split; [reflexivity |].
    assert (r = 1%N) as -> by lia.
    destruct Hmin as [Hmin | [? _]]; [| lia].
    change (64 ^ 1)%N with 64%N in Hmin. lia.
  - right. split; [reflexivity |]. cbn [fst].
    exists (r - 1)%N. cbn.
    split; [lia |]. split; [lia |]. left.
    destruct Hcases as [-> | [-> | ->]]; [lia | |].
    + change (2 - 1)%N with 1%N. change (64 ^ 1)%N with 64%N.
      change (64 ^ 2)%N with 4096%N in Hmin. lia.
    + change (3 - 1)%N with 2%N. change (64 ^ 2)%N with 4096%N.
      change (64 ^ 3)%N with 262144%N in Hmin. lia.
Qed.

(** Whatever follows a pending sequence, the next code point decoded is
    not an ASCII one. *)
Lemma utf8_decode_pending (bytes : Buffer) :
  forall st, pending st ->
    exists c out, utf8_decode st bytes = c :: out /\ (128 <= c)%N.
Proof.
  induction bytes as [| b bytes IH]; intros st Hst; cbn [utf8_decode].
  - destruct Hst as (r & Hr & Hneed & _).
    destruct (N.eqb_spec (bytes_needed st) 0); [lia |].
    eexists _, _. split; [reflexivity |]. unfold REPLACEMENT_CHARACTER. lia.
  - destruct (utf8_step_pending st (Byte.to_N b) Hst)
      as [(c & out & -> & Hc) | [-> Hst']].
    + by exists c, (out ++ utf8_decode (fst (utf8_step st (Byte.to_N b))) bytes).
    + apply (IH _ Hst').
Qed.

(** A buffer that decodes to ASCII code points only is these code points,
    byte for byte. *)
Lemma toString_ascii (bytes : Buffer) :
  Forall (fun c => (c < 128)%N) (toString bytes) ->
  toString bytes = map Byte.to_N bytes.
Proof.
  unfold toString.
  induction bytes as [| b bytes IH]; [done |].
  cbn [utf8_decode map].
  change (utf8_step utf8_initial (Byte.to_N b)) with (utf8_lead (Byte.to_N b)).
  destruct (utf8_lead_cases (Byte.to_N b))
    as [[_ ->] | [_ [-> | [Hpend ->]]]]; cbn [fst snd app].
  - intros Hall. apply Forall_cons in Hall as [_ Hall]. by rewrite IH.
  - intros Hall. apply Forall_cons in Hall as [Hc _].
    unfold REPLACEMENT_CHARACTER in Hc. lia.
  - destruct (utf8_decode_pending bytes _ Hpend) as (c & out & -> & Hc).
    intros Hall. apply Forall_cons in Hall as [Hc' _]. lia.
Qed.

(** [validatePDF] holds exactly of the buffers that start with the four
    bytes of the signature. *)
Lemma validatePDF_signature (buffer : Buffer) :
  validatePDF buffer = true <-> take 4 buffer = PDF_SIGNATURE.
Proof.
  unfold validatePDF, slice_0_4. rewrite bool_decide_eq_true. split.
  - intros Hdec.
    assert (Hmap : map Byte.to_N (take 4 buffer) = code_points "%PDF").
    { rewrite <- toString_ascii; [done |]. rewrite Hdec.
      repeat constructor. }
    destruct (take 4 buffer) as [| b1 [| b2 [| b3 [| b4 [| b5 rest]]]]];
      try discriminate Hmap.
    injection Hmap as H1 H2 H3 H4.
    apply Byte.to_of_N_iff in H1, H2, H3, H4.
    vm_compute in H1, H2, H3, H4. by simplify_eq.
  - by intros ->.
Qed.

(** ** The upload route *)

Lemma isFileSizeValid_default (buffer : Buffer) :
  isFileSizeValid buffer None = true <-> getFileSize buffer <= 10 * 1024 * 1024.
Proof. unfold isFileSizeValid. cbn [default]. apply Z.leb_le. Qed.

Lemma isFileSizeValid_default_false (buffer : Buffer) :
  isFileSizeValid buffer None = false <-> getFileSize buffer > 10 * 1024 * 1024.
Proof. unfold isFileSizeValid. cbn [default]. rewrite Z.leb_gt. lia. Qed.

Lemma getFileSize_buffer_of_size (n : Z) :
  0 <= n -> getFileSize (buffer_of_size n) = n.
Proof.
  intros Hn. unfold getFileSize, buffer_of_size.
  rewrite length_replicate. apply Z2Nat.id, Hn.
Qed.

Lemma client_error_400 (message : string) : client_error (error 400 message).
Proof. unfold client_error. cbn. lia. Qed.

Section upload_guards.

Variable env : Environment.
Variable w : World.

Lemma rejected_400 (file : File.t) (message : string) :
  post_requirements_upload env (Some file) w = (error 400 message, w) ->
  rejected_untouched env file w.
Proof.
  intros Hrun. unfold rejected_untouched. rewrite Hrun. cbn [fst snd].
  auto using client_error_400.
Qed.

(** C8: an upload whose buffer does not start with the four bytes
    ["%PDF"] is answered with a 4xx, and the world after the handler is
    the world before it: no Document in the store, no call to
    [extractText]. *)
Theorem upload_rejects_missing_signature (file : File.t) :
  take 4 (File.buffer file) <> PDF_SIGNATURE ->
  rejected_untouched env file w.
Proof.
  intros Hsig. apply rejected_400 with (message := "Invalid PDF file").
  unfold post_requirements_upload.
  destruct (validatePDF (File.buffer file)) eqn:Hvalid; [| done].
  by apply validatePDF_signature in Hvalid.
Qed.

End upload_guards.

(** An HTML page sent as the upload. *)
Lemma upload_rejects_missing_signature_witness :
  rejected_untouched sample_env file_html sample_world.
Proof.
  apply (upload_rejects_missing_signature sample_env sample_world file_html).
  vm_compute. discriminate.
Defined.

(** C10: the size limit is inclusive.  A buffer of exactly
    10 * 1024 * 1024 bytes passes [isFileSizeValid]; the buffers that fail
    it are exactly the strictly longer ones; and the upload handler never
    answers such a buffer with the oversize error. *)
Theorem isFileSizeValid_limit_inclusive (buffer : Buffer) :
  getFileSize buffer = 10 * 1024 * 1024 ->
  isFileSizeValid buffer None = true
  /\ (forall other : Buffer,
        isFileSizeValid other None = false <-> getFileSize other > getFileSize buffer)
  /\ (forall env filename w,
        fst (post_requirements_upload env (Some (File.mk filename buffer)) w)
        <> error 400 "File size exceeds 10MB limit").
Proof.
  intros Hsize.
  assert (Hvalid : isFileSizeValid buffer None = true).
  { apply isFileSizeValid_default. lia. }
  split; [exact Hvalid |]. split.
  - intros other. rewrite Hsize. apply isFileSizeValid_default_false.
  - intros env filename w. unfold post_requirements_upload. cbn [File.buffer File.filename].
    destruct (validatePDF buffer); cbn [negb]; [| discriminate].
    rewrite Hvalid. cbn [negb].
    unfold try_catch, bind, await, create, ret.
    destruct (extractText (pdfjs env buffer)); cbn; [| discriminate].
    destruct (classifyRequirements _ _); cbn; [| discriminate].
    destruct (for_of _ _ _) as [[rs | message] w']; discriminate.
Qed.

(** An upload of exactly 10 MiB. *)
Lemma isFileSizeValid_limit_inclusive_witness :
  isFileSizeValid (File.buffer file_10MiB) None = true
  /\ (forall other : Buffer,
        isFileSizeValid other None = false
        <-> getFileSize other > getFileSize (File.buffer file_10MiB))
  /\ (forall env filename w,
        fst (post_requirements_upload env
               (Some (File.mk filename (File.buffer file_10MiB))) w)
        <> error 400 "File size exceeds 10MB limit").
Proof.
  apply (isFileSizeValid_limit_inclusive (File.buffer file_10MiB)).
  unfold file_10MiB. cbn [File.buffer].
  rewrite getFileSize_buffer_of_size; lia.
Defined.

(** Storing the classified requirements never fails, and each stored
    record carries the phase of its item. *)
Lemma for_of_phases (f : ClassificationItem.t -> M Requirement.t)
    (items : list ClassificationItem.t) :
  (forall item w, exists r w',
      f item w = (Ok r, w') /\ Requirement.phase r = ClassificationItem.phase item) ->
  forall w, exists rs w',
    for_of f items w = (Ok rs, w')
    /\ map Requirement.phase rs = map ClassificationItem.phase items.
Proof.
  intros Hf. induction items as [| item items IH]; intros w; cbn [for_of].
  - by exists [], w.
  - unfold bind at 1.
    destruct (Hf item w) as (r & w1 & -> & Hr).
    unfold bind at 1.
    destruct (IH w1) as (rs & w2 & -> & Hrs).
    exists (r :: rs), w2. split; [done |]. cbn [map]. by rewrite Hr, Hrs.
Qed.

(** The phases of the requirements of a 200 answer are the phases of the
    model's items, one for one and unchanged. *)
Lemma upload_phases_from_model (env : Environment) (file : File.t) (w : World)
    (document : Document.t) (requirements : list Requirement.t)
    (statistics : gmap string Z) (extractedText : string) :
  fst (post_requirements_upload env (Some file) w)
  = json (UploadBody document requirements statistics extractedText) ->
  exists text result,
    classification env text = Parsed result
    /\ map Requirement.phase requirements
       = map ClassificationItem.phase
           (array_or (ClassificationJSON.requirements result) []).
Proof.
  unfold post_requirements_upload.
  destruct (validatePDF (File.buffer file)); cbn [negb]; [| discriminate].
  destruct (isFileSizeValid (File.buffer file) None); cbn [negb]; [| discriminate].
  unfold try_catch, bind at 1, await at 1.
  destruct (extractText (pdfjs env (File.buffer file))) as [extracted | message];
    [| discriminate].
  unfold bind at 1, create at 1. cbn [fst snd].
  unfold bind at 1, await at 1. unfold classifyRequirements.
  destruct (classification env (PDFProcessingResult.text extracted))
    as [message | message | result] eqn:Hmodel; try discriminate.
  cbn [ClassificationResult.requirements ClassificationResult.statistics].
  unfold bind at 1.
  match goal with
  | |- context [for_of ?f ?items ?w1] =>
      destruct (for_of_phases f items) with (w := w1) as (rs & w2 & -> & Hrs)
  end.
  - intros item w1. eexists _, _. split; [reflexivity |]. reflexivity.
  - unfold ret, json. intros [= _ <- _ _].
    by exists (PDFProcessingResult.text extracted), result.
Qed.

(** C4, at the failing input: the model labels a requirement
    ["Maintenance"]; the upload is answered 200 and the requirement is
    stored with that phase, which is none of the five labels. *)
Theorem upload_stores_phase_outside_labels :
  status (fst (post_requirements_upload sample_env (Some sample_file) sample_world)) = 200
  /\ exists requirement,
       requirements
         (store (snd (post_requirements_upload sample_env (Some sample_file) sample_world)))
         !! "7f9c0e1a-0001" = Some requirement
       /\ Requirement.phase requirement = "Maintenance"
       /\ forall p : Phase, Requirement.phase requirement <> label p.
Proof.
  split; [vm_compute; reflexivity |].
  eexists. split; [vm_compute; reflexivity |].
  split; [reflexivity |].
  intros p. destruct p; discriminate.
Qed.

(** * Further properties *)

(** ** The orchestration service, all operations *)

Lemma tally_dom (statistics : gmap string Z) (req : ClassificationItem.t) :
  dom (tally statistics req) = dom statistics.
Proof.
  unfold tally, increment. destruct (hasOwnProperty _ _); [| done].
  apply dom_alter_L.
Qed.

Lemma foldl_tally_dom (reqs : list ClassificationItem.t) :
  forall statistics : gmap string Z, dom (foldl tally statistics reqs) = dom statistics.
Proof.
  induction reqs as [| req reqs IH]; intros statistics; cbn [foldl]; [done |].
  by rewrite IH, tally_dom.
Qed.

Lemma zero_statistics_dom (key : string) :
  key ∈ dom zero_statistics <-> exists p : Phase, key = label p.
Proof.
  unfold zero_statistics. rewrite !dom_insert_L, dom_empty_L. split.
  - intros Hkey.
    repeat (apply elem_of_union in Hkey as [Hkey | Hkey];
            [apply elem_of_singleton in Hkey |]).
    + by exists Requirements.
    + by exists Design.
    + by exists Development.
    + by exists Testing.
    + by exists Deployment.
    + set_solver.
  - intros [[] ->]; cbn; set_solver.
Qed.

(** X1: the statistics [classifyRequirements] returns have the five phase
    labels as their keys and no other key, whatever phases the model's
    items carry. *)
Theorem classifyRequirements_statistics_keys
    (text : string) (result : ClassificationJSON.t) :
  exists r,
    classifyRequirements text (Parsed result) = Ok r
    /\ forall key : string,
         is_Some (ClassificationResult.statistics r !! key)
         <-> exists p : Phase, key = label p.
Proof.
  eexists. split; [reflexivity |]. intros key. cbn.
  rewrite <- elem_of_dom, <- zero_statistics_dom. unfold tally_all.
  destruct (ClassificationJSON.requirements result) as [reqs |]; [| done].
  by rewrite foldl_tally_dom.
Qed.

Lemma tally_all_label (requirements : option (list ClassificationItem.t)) (p : Phase) :
  tally_all requirements !! label p
  = Some (phase_count (label p) (array_or requirements [])).
Proof.
  destruct requirements as [reqs |]; cbn.
  - by rewrite (foldl_tally_lookup reqs _ _ 0 (zero_statistics_label p)).
  - apply zero_statistics_label.
Qed.

Lemma labelled_count_cons (req : ClassificationItem.t)
    (reqs : list ClassificationItem.t) :
  labelled_count (req :: reqs) = labelled_count [req] + labelled_count reqs.
Proof.
  unfold labelled_count. rewrite !filter_cons, filter_nil.
  case_decide; cbn [length]; lia.
Qed.

Lemma phase_count_labels (reqs : list ClassificationItem.t) :
  foldr (fun l n => phase_count l reqs + n) 0 labels = labelled_count reqs.
Proof.
  induction reqs as [| req reqs IH]; [reflexivity |].
  rewrite labelled_count_cons, <- IH. cbn [labels map foldr label].
  rewrite !(phase_count_cons _ req reqs).
  assert (Hone : foldr (fun l n => phase_count l [req] + n) 0 labels
                 = labelled_count [req]).
  { unfold phase_count, labelled_count, labels. cbn [map foldr label].
    rewrite !filter_cons, !filter_nil.
    repeat case_decide; cbn [length]; try lia; exfalso;
      repeat match goal with
             | H : _ ∈ _ :: _ |- _ => apply elem_of_cons in H as [H | H]
             | H : _ ∈ [] |- _ => by apply elem_of_nil in H
             | H : ¬ (_ ∈ _) |- _ => apply H; set_solver
             | H : ?x = _, H' : ?x = _ |- _ => rewrite H in H'; discriminate H'
             | H : ?x = ?a, H' : ?x <> ?a |- _ => by destruct H'
             end. }
  rewrite <- Hone. cbn [labels map foldr label]. lia.
Qed.

(** X2: [classifyRequirements] returns the model's list of requirements
    as it is (the empty list when the response has none), and the five
    tallies add up to the number of its entries whose phase is one of the
    five labels; an entry with any other phase stays in the returned list
    but is counted in no tally, so the sum never exceeds the length of
    the list. *)
Theorem classifyRequirements_tallies_sum
    (text : string) (result : ClassificationJSON.t) :
  exists r,
    classifyRequirements text (Parsed result) = Ok r
    /\ ClassificationResult.requirements r
       = array_or (ClassificationJSON.requirements result) []
    /\ tally_total (ClassificationResult.statistics r)
       = labelled_count (array_or (ClassificationJSON.requirements result) [])
    /\ tally_total (ClassificationResult.statistics r)
       <= Z.of_nat (length (array_or (ClassificationJSON.requirements result) [])).
Proof.
  eexists. split; [reflexivity |]. split; [reflexivity |].
  cbn [ClassificationResult.statistics ClassificationResult.requirements].
  set (reqs := array_or (ClassificationJSON.requirements result) []).
  assert (Hsum : tally_total (tally_all (ClassificationJSON.requirements result))
                 = labelled_count reqs).
  { rewrite <- phase_count_labels. unfold tally_total, labels.
    cbn [map foldr]. by rewrite !tally_all_label. }
  split; [done |]. rewrite Hsum. unfold labelled_count.
  pose proof (length_filter (fun req => ClassificationItem.phase req ∈ labels) reqs).
  lia.
Qed.

(** X4: [fixBugs] never returns an empty [fixedCode] for a non-empty input
    code: an empty or missing correction is replaced by the input. *)
Theorem fixBugs_fixedCode_nonempty
    (code : string) (language : option string) (result : BugFixJSON.t) :
  code <> "" ->
  exists r,
    fixBugs code language (Parsed result) = Ok r /\ BugFixResult.fixedCode r <> "".
Proof.
  intros Hcode. eexists. split; [reflexivity |]. cbn.
  by destruct (BugFixJSON.fixedCode result) as [[| a fixed] |].
Qed.

(** The model answers [{}]. *)
Lemma fixBugs_fixedCode_nonempty_witness :
  exists r,
    fixBugs "x = 1" None (Parsed (BugFixJSON.mk None None None)) = Ok r
    /\ BugFixResult.fixedCode r <> "".
Proof.
  apply (fixBugs_fixedCode_nonempty "x = 1" None (BugFixJSON.mk None None None)).
  discriminate.
Defined.

(** X5: when the request succeeds, [chatResponse] returns a non-empty
    reply: the content of the model's message when that is a non-empty
    string, and the fixed apology when the content is null or empty. *)
Theorem chatResponse_nonempty (message : string) (content : option string) :
  exists reply,
    chatResponse message (Ok content) = Ok reply
    /\ reply <> ""
    /\ reply = match content with
               | Some (String a s) => String a s
               | Some EmptyString | None => CHAT_FALLBACK
               end.
Proof.
  eexists. split; [reflexivity |].
  destruct content as [[| a s] |]; cbn; (split; [discriminate | reflexivity]).
Qed.

(** ** The document text extractor, further *)

(** X6: [validatePDF] holds exactly of the buffers that start with the
    four bytes 25 50 44 46 (["%PDF"]), whatever follows them. *)
Theorem validatePDF_iff_starts_with_signature (buffer : Buffer) :
  validatePDF buffer = true <-> exists rest, buffer = PDF_SIGNATURE ++ rest.
Proof.
  rewrite validatePDF_signature. split.
  - intros Htake. exists (drop 4 buffer). by rewrite <- Htake, take_drop.
  - by intros [rest ->].
Qed.

Lemma trim_start_suffix (l : list ascii) :
  exists spaces, l = spaces ++ trim_start l
                 /\ Forall (fun a => is_white_space a = true) spaces.
Proof.
  induction l as [| a l (spaces & Hl & Hspaces)]; cbn [trim_start].
  - by exists [].
  - destruct (is_white_space a) eqn:Ha.
    + exists (a :: spaces). split; [by rewrite Hl at 1 | by constructor].
    + by exists [].
Qed.

Lemma trim_start_head (l : list ascii) (a : ascii) :
  head (trim_start l) = Some a -> is_white_space a = false.
Proof.
  induction l as [| b l IH]; cbn [trim_start]; [done |].
  destruct (is_white_space b) eqn:Hb; [done |].
  cbn. by intros [= <-].
Qed.

Lemma trim_start_spaces (l : list ascii) :
  Forall (fun a => is_white_space a = true) l -> trim_start l = [].
Proof. induction 1 as [| a l Ha _ IH]; cbn [trim_start]; [done | by rewrite Ha]. Qed.

Lemma last_rev (l : list ascii) : last (rev l) = head l.
Proof. rewrite rev_alt. apply (last_reverse l). Qed.

Lemma characters_trim (s : string) :
  characters (trim s)
  = rev (trim_start (rev (trim_start (characters s)))).
Proof. unfold characters, trim. apply String.list_ascii_of_string_of_list_ascii. Qed.

Lemma trim_trimmed (s : string) : trimmed (trim s).
Proof.
  unfold trimmed. rewrite characters_trim.
  set (l := trim_start (characters s)).
  destruct (trim_start_suffix (rev l)) as (spaces & Hrev & _).
  split; intros a Ha.
  - assert (Hl : l = rev (trim_start (rev l)) ++ rev spaces).
    { rewrite <- rev_app_distr, <- Hrev. by rewrite rev_involutive. }
    destruct (rev (trim_start (rev l))) as [| b kept] eqn:Hkept; [done |].
    cbn in Ha. injection Ha as ->.
    apply (trim_start_head (characters s)). fold l. by rewrite Hl.
  - apply (trim_start_head (rev l)). by rewrite <- last_rev.
Qed.

Lemma characters_app (s1 s2 : string) :
  characters (s1 +:+ s2) = characters s1 ++ characters s2.
Proof.
  unfold characters. induction s1 as [| a s1 IH]; simpl; [done | by rewrite IH].
Qed.

Lemma pageText_blank (items : list (option string)) :
  Forall blank items -> pageText items = "".
Proof.
  unfold pageText. induction 1 as [| item items [-> | ->] _ IH]; cbn; done.
Qed.

Lemma trim_spaces (s : string) :
  Forall (fun a => is_white_space a = true) (characters s) -> trim s = "".
Proof.
  intros Hs. unfold trim. fold (characters s).
  rewrite (trim_start_spaces _ Hs). reflexivity.
Qed.

(** X7: the text [extractText] returns neither starts nor ends with white
    space, and the page count it returns is the number of pages read. *)
Theorem extractText_trimmed (pdf : list (list (option string))) :
  exists r,
    extractText (Ok pdf) = Ok r
    /\ PDFProcessingResult.pages r = Z.of_nat (length pdf)
    /\ trimmed (PDFProcessingResult.text r).
Proof.
  eexists. split; [reflexivity |]. split; [reflexivity |]. apply trim_trimmed.
Qed.

(** X8: a document whose pages carry no text (every item without [str],
    or with an empty one) is extracted to the empty text, with its page
    count; extraction does not fail on it. *)
Theorem extractText_blank_document (pdf : list (list (option string))) :
  Forall (Forall blank) pdf ->
  extractText (Ok pdf)
  = Ok {| PDFProcessingResult.text := "";
          PDFProcessingResult.pages := Z.of_nat (length pdf) |}.
Proof.
  intros Hblank. unfold extractText. do 2 f_equal. apply trim_spaces.
  assert (Hacc : forall fullText,
             Forall (fun a => is_white_space a = true) (characters fullText) ->
             Forall (fun a => is_white_space a = true)
               (characters
                  (foldl (fun fullText items =>
                            fullText +:+ pageText items +:+ String "010"%char "")
                         fullText pdf))).
  { induction Hblank as [| items pdf Hitems _ IH]; intros fullText Hfull; [done |].
    cbn [foldl]. apply IH. rewrite (pageText_blank items Hitems).
    rewrite characters_app. apply Forall_app. split; [done |].
    by repeat constructor. }
  by apply Hacc.
Qed.

(** Two pages of a scan: an item without text and an empty one, then
    nothing. *)
Lemma extractText_blank_document_witness :
  extractText (Ok [[None; Some ""]; []])
  = Ok {| PDFProcessingResult.text := "";
          PDFProcessingResult.pages := Z.of_nat (length [[None; Some ""]; []]) |}.
Proof.
  apply (extractText_blank_document [[None; Some ""]; []]).
  repeat constructor; by right.
Defined.

(** ** The store, further *)

Lemma record_insert_ne {A : Type} (f : A -> Any) (m : gmap string A)
    (id key : string) (x : A) :
  id <> key -> f <$> <[id := x]> m !! key = f <$> m !! key.
Proof. intros Hne. by rewrite lookup_insert_ne. Qed.

Lemma record_insert_is_Some {A : Type} (f : A -> Any) (m : gmap string A)
    (id key : string) (x : A) :
  is_Some (f <$> m !! key) -> is_Some (f <$> <[id := x]> m !! key).
Proof.
  rewrite !fmap_is_Some, lookup_insert_is_Some.
  destruct (decide (id = key)); auto.
Qed.

(** X9: an operation writes to one key of one partition: the record
    under any other key, and every record of the other partitions, is
    after the operation what it was before. *)
Theorem apply_frame (op : Operation) (this : MemStorage.t) (kind : Kind) (key : string) :
  target op <> (kind, key) ->
  record kind (apply op this) key = record kind this key.
Proof.
  intros Htarget.
  destruct op; cbn in Htarget; cbn -[updateCodeSnippet];
    try (destruct kind; cbn; solve [done | apply record_insert_ne; congruence]).
  unfold updateCodeSnippet.
  destruct (codeSnippets this !! id) as [existing |]; [| done].
  destruct kind; cbn; solve [done | apply record_insert_ne; congruence].
Qed.

(** Creating a test case leaves the code snippet of the sample store. *)
Lemma apply_frame_witness :
  record KCodeSnippet
    (apply (CreateTestCase "7f9c0e1a-0000" 1700000000002 sample_test_case) sample_store)
    "7f9c0e1a-0000"
  = record KCodeSnippet sample_store "7f9c0e1a-0000".
Proof.
  apply (apply_frame (CreateTestCase "7f9c0e1a-0000" 1700000000002 sample_test_case)
           sample_store KCodeSnippet "7f9c0e1a-0000").
  discriminate.
Defined.

Lemma apply_keeps_records (op : Operation) (this : MemStorage.t)
    (kind : Kind) (key : string) :
  is_Some (record kind this key) -> is_Some (record kind (apply op this) key).
Proof.
  destruct op; cbn -[updateCodeSnippet];
    try (destruct kind; cbn; solve [done | apply record_insert_is_Some]).
  unfold updateCodeSnippet.
  destruct (codeSnippets this !! id) as [existing |]; [| done].
  destruct kind; cbn; solve [done | apply record_insert_is_Some].
Qed.

Lemma run_keeps_records (ops : list Operation) :
  forall (this : MemStorage.t) (kind : Kind) (key : string),
    is_Some (record kind this key) -> is_Some (record kind (run ops this) key).
Proof.
  unfold run. induction ops as [| op ops IH]; intros this kind key Hsome; cbn [foldl].
  - done.
  - by apply IH, apply_keeps_records.
Qed.

(** X10: the store only grows: a key that holds a record still holds one
    after any sequence of operations (creates and updates, whatever
    identifiers they draw). *)
Theorem run_never_removes (ops : list Operation) (this : MemStorage.t)
    (kind : Kind) (key : string) :
  is_Some (record kind this key) -> is_Some (record kind (run ops this) key).
Proof. apply run_keeps_records. Qed.

(** An update that gives the snippet of the sample store another [id],
    then a user created under any key. *)
Lemma run_never_removes_witness :
  is_Some (record KCodeSnippet
             (run [UpdateCodeSnippet "7f9c0e1a-0000" id_update;
                   CreateUser "7f9c0e1a-0001" 1700000000002
                     (InsertUser.mk "developer" "secret" "dev@example.com")]
                  sample_store)
             "7f9c0e1a-0000").
Proof.
  apply (run_never_removes
           [UpdateCodeSnippet "7f9c0e1a-0000" id_update;
            CreateUser "7f9c0e1a-0001" 1700000000002
              (InsertUser.mk "developer" "secret" "dev@example.com")]
           sample_store KCodeSnippet "7f9c0e1a-0000").
  vm_compute. eauto.
Defined.

(** X11: the owner the routes give to every record they create exists:
    in every store reached from [new MemStorage()], [getUser] finds a user
    under ["default-user"]. *)
Theorem default_user_resolves (now : Z) (ops : list Operation) :
  is_Some (getUser DEFAULT_USER_ID (run ops (constructor now))).
Proof.
  pose proof (run_keeps_records ops (constructor now) KUser DEFAULT_USER_ID) as Hrun.
  cbn [record] in Hrun. rewrite !fmap_is_Some in Hrun. apply Hrun.
  unfold DEFAULT_USER_ID, constructor. cbn -[lookup singletonM].
  rewrite lookup_singleton_eq. eauto.
Qed.

Lemma stamp_insert {A : Type} (f : A -> string * option Z) (m : gmap string A)
    (id key : string) (x : A) (s : string * option Z) :
  fst (f x) = id ->
  (forall s', f <$> m !! key = Some s' -> fst s' = key) ->
  f <$> <[id := x]> m !! key = Some s -> fst s = key.
Proof.
  intros Hx Hm. rewrite lookup_insert. case_decide as Hid.
  - cbn. intros [= <-]. by rewrite Hx.
  - apply Hm.
Qed.

Ltac by_partition H key :=
  first [ apply (H KUser key) | apply (H KDocument key) | apply (H KRequirement key)
        | apply (H KCodeSnippet key) | apply (H KTestCase key)
        | apply (H KDocumentation key) | apply (H KChatMessage key) ].

Lemma apply_keyed_by_id (op : Operation) (this : MemStorage.t) :
  keeps_id op -> keyed_by_id this -> keyed_by_id (apply op this).
Proof.
  intros Hkeeps Hthis kind key s.
  destruct op; cbn in Hkeeps; cbn -[updateCodeSnippet];
    try (destruct kind; cbn;
         solve [by_partition Hthis key
               | apply stamp_insert; [done | intros s'; by_partition Hthis key]]).
  unfold updateCodeSnippet.
  destruct (codeSnippets this !! id) as [existing |] eqn:Hex;
    [| apply (Hthis kind key s)].
  destruct kind; cbn; try by_partition Hthis key.
  apply stamp_insert; [| intros s'; by_partition Hthis key].
  cbn. destruct Hkeeps as [-> | ->]; cbn; [| done].
  apply (Hthis KCodeSnippet id (CodeSnippet.id existing, CodeSnippet.createdAt existing)).
  cbn. by rewrite Hex.
Qed.

Lemma constructor_keyed_by_id (now : Z) : keyed_by_id (constructor now).
Proof.
  intros kind key s. unfold constructor.
  destruct kind; cbn -[lookup singletonM empty]; rewrite ?lookup_empty; try done.
  rewrite lookup_singleton. case_decide as Hkey; [| done].
  cbn. by intros [= <-].
Qed.

(** X12: every record is stored under its own [id], in every store reached
    from [new MemStorage()] by creates and by updates that do not give a
    snippet an [id] other than the one it is stored under. *)
Theorem run_keyed_by_id (now : Z) (ops : list Operation) :
  Forall keeps_id ops -> keyed_by_id (run ops (constructor now)).
Proof.
  intros Hops. unfold run.
  assert (Hgen : forall this, keyed_by_id this ->
                   keyed_by_id (foldl (fun this op => apply op this) this ops)).
  { induction Hops as [| op ops Hop _ IH]; intros this Hthis; cbn [foldl]; [done |].
    by apply IH, apply_keyed_by_id. }
  apply Hgen, constructor_keyed_by_id.
Qed.

(** A snippet is created, then generated code is attached to it. *)
Lemma run_keyed_by_id_witness :
  keyed_by_id
    (run [CreateCodeSnippet "7f9c0e1a-0000" 1700000000001 sample_snippet;
          UpdateCodeSnippet "7f9c0e1a-0000" code_update]
         (constructor 1700000000000)).
Proof.
  apply (run_keyed_by_id 1700000000000
           [CreateCodeSnippet "7f9c0e1a-0000" 1700000000001 sample_snippet;
            UpdateCodeSnippet "7f9c0e1a-0000" code_update]).
  repeat constructor.
Defined.

Lemma set_codeSnippets_id (this : MemStorage.t) :
  set_codeSnippets (codeSnippets this) this = this.
Proof. by destruct this. Qed.

Lemma spread_empty (existing : CodeSnippet.t) : spread existing empty_updates = existing.
Proof. by destruct existing. Qed.

Lemma spread_idempotent (existing : CodeSnippet.t) (updates : PartialCodeSnippet.t) :
  spread (spread existing updates) updates = spread existing updates.
Proof.
  destruct updates as [[] [] [] [] [] [] [] [] []]; reflexivity.
Qed.

(** X13: [updateCodeSnippet] on a stored snippet returns the merged
    record, and a read of the same identifier afterwards returns that
    record. *)
Theorem update_then_get (id : string) (updates : PartialCodeSnippet.t)
    (this : MemStorage.t) (existing : CodeSnippet.t) :
  getCodeSnippet id this = Some existing ->
  fst (updateCodeSnippet id updates this) = Some (spread existing updates)
  /\ getCodeSnippet id (snd (updateCodeSnippet id updates this))
     = Some (spread existing updates).
Proof.
  unfold getCodeSnippet, updateCodeSnippet. intros ->. cbn.
  split; [done | apply lookup_insert_eq].
Qed.

(** Generated code is attached to the snippet of the sample store. *)
Lemma update_then_get_witness :
  fst (updateCodeSnippet "7f9c0e1a-0000" code_update sample_store)
  = Some (spread (fst (createCodeSnippet "7f9c0e1a-0000" 1700000000001 sample_snippet
                         (constructor 1700000000000)))
                 code_update)
  /\ getCodeSnippet "7f9c0e1a-0000"
       (snd (updateCodeSnippet "7f9c0e1a-0000" code_update sample_store))
     = Some (spread (fst (createCodeSnippet "7f9c0e1a-0000" 1700000000001 sample_snippet
                            (constructor 1700000000000)))
                    code_update).
Proof.
  apply (update_then_get "7f9c0e1a-0000" code_update sample_store).
  reflexivity.
Defined.

(** X14: [updateCodeSnippet] with no field to update changes nothing: it
    returns what a read returns and leaves the store as it was, whether
    the identifier is stored or not. *)
Theorem update_empty (id : string) (this : MemStorage.t) :
  updateCodeSnippet id empty_updates this = (getCodeSnippet id this, this).
Proof.
  unfold updateCodeSnippet, getCodeSnippet.
  destruct (codeSnippets this !! id) as [existing |] eqn:Hex; [| done].
  rewrite spread_empty, (insert_id _ _ _ Hex). by rewrite set_codeSnippets_id.
Qed.

(** X15: [updateCodeSnippet] is idempotent: the same update applied a
    second time returns the same record and leaves the same store. *)
Theorem update_idempotent (id : string) (updates : PartialCodeSnippet.t)
    (this : MemStorage.t) :
  updateCodeSnippet id updates (snd (updateCodeSnippet id updates this))
  = updateCodeSnippet id updates this.
Proof.
  unfold updateCodeSnippet.
  destruct (codeSnippets this !! id) as [existing |] eqn:Hex; cbn; [| by rewrite Hex].
  rewrite lookup_insert_eq, spread_idempotent. unfold set_codeSnippets. cbn.
  by rewrite insert_insert_eq.
Qed.

Lemma elem_of_values {A : Type} (m : gmap string A) (x : A) :
  x ∈ values m <-> exists key, m !! key = Some x.
Proof.
  unfold values. rewrite list_elem_of_fmap. split.
  - intros [[key y] [-> Hin]]. exists key. by apply elem_of_map_to_list.
  - intros [key Hkey]. exists (key, x). split; [done |]. by apply elem_of_map_to_list.
Qed.

(** X16: a by-owner listing holds exactly the stored records of that
    owner: a record is in the listing of [userId] if and only if it is
    stored under some key and its [userId] is that user (so a record
    without an owner is in no listing).  For documents, code snippets and
    chat messages, the listings the routes serve, and for requirements by
    document. *)
Theorem listings_membership (this : MemStorage.t) (owner : string) :
  (forall doc,
      doc ∈ getDocumentsByUserId owner this
      <-> (exists key, documents this !! key = Some doc)
          /\ Document.userId doc = Some owner)
  /\ (forall snippet,
        snippet ∈ getCodeSnippetsByUserId owner this
        <-> (exists key, codeSnippets this !! key = Some snippet)
            /\ CodeSnippet.userId snippet = Some owner)
  /\ (forall msg,
        msg ∈ getChatMessagesByUserId owner this
        <-> (exists key, chatMessages this !! key = Some msg)
            /\ ChatMessage.userId msg = Some owner)
  /\ (forall req,
        req ∈ getRequirementsByDocumentId owner this
        <-> (exists key, requirements this !! key = Some req)
            /\ Requirement.documentId req = Some owner).
Proof.
  split_and!; intros x;
    unfold getDocumentsByUserId, getCodeSnippetsByUserId, getChatMessagesByUserId,
      getRequirementsByDocumentId;
    rewrite list_elem_of_filter, elem_of_values; cbn beta; tauto.
Qed.

Lemma values_insert_fresh {A : Type} (m : gmap string A) (id : string) (x : A) :
  m !! id = None -> values (<[id := x]> m) ≡ₚ x :: values m.
Proof.
  intros Hid. unfold values. by rewrite (map_to_list_insert m id x Hid).
Qed.

(** X17: after [createDocument] with an identifier not in use, the
    listing of every user is its listing before, with the new document
    added if the payload names that user as owner; a document created
    without an owner is added to no listing.  The listings are compared as
    multisets. *)
Theorem create_then_list (id : string) (now : Z) (insertDocument : InsertDocument.t)
    (this : MemStorage.t) (owner : string) :
  documents this !! id = None ->
  getDocumentsByUserId owner (snd (createDocument id now insertDocument this))
  ≡ₚ (if decide (or_null (InsertDocument.userId insertDocument) = Some owner)
      then [fst (createDocument id now insertDocument this)]
      else [])
     ++ getDocumentsByUserId owner this.
Proof.
  intros Hid. unfold getDocumentsByUserId, createDocument. cbn.
  rewrite (values_insert_fresh _ _ _ Hid), filter_cons. cbn.
  by repeat case_decide.
Qed.

(** A document without an owner is created in the sample store. *)
Lemma create_then_list_witness :
  getDocumentsByUserId "default-user"
    (snd (createDocument "7f9c0e1a-0001" 1700000000002 orphan_document sample_store))
  ≡ₚ (if decide (or_null (InsertDocument.userId orphan_document) = Some "default-user")
      then [fst (createDocument "7f9c0e1a-0001" 1700000000002 orphan_document
                   sample_store)]
      else [])
     ++ getDocumentsByUserId "default-user" sample_store.
Proof.
  apply (create_then_list "7f9c0e1a-0001" 1700000000002 orphan_document sample_store
           "default-user").
  reflexivity.
Defined.

(** X18: [getUserByUsername] returns a stored user with that username when
    there is one, and nothing exactly when no stored user has it. *)
Theorem getUserByUsername_spec (username : string) (this : MemStorage.t) :
  match getUserByUsername username this with
  | Some user =>
      User.username user = username /\ exists key, users this !! key = Some user
  | None =>
      forall key user, users this !! key = Some user -> User.username user <> username
  end.
Proof.
  unfold getUserByUsername, find.
  destruct (filter _ (values (users this))) as [| user rest] eqn:Hfilter; cbn.
  - intros key user Hkey Hname.
    assert (Hin : user ∈ filter (fun user => User.username user = username)
                               (values (users this))).
    { apply list_elem_of_filter. split; [done |]. apply elem_of_values. eauto. }
    rewrite Hfilter in Hin. by apply elem_of_nil in Hin.
  - assert (Hin : user ∈ filter (fun user => User.username user = username)
                               (values (users this))).
    { rewrite Hfilter. by left. }
    apply list_elem_of_filter in Hin as [Hname Hin].
    by apply elem_of_values in Hin.
Qed.

(** ** The upload route, further *)

Lemma for_of_createRequirement (env : Environment) (document : Document.t)
    (insert : ClassificationItem.t -> InsertRequirement.t)
    (items : list ClassificationItem.t) :
  (forall item id now this,
      made_for document item (fst (createRequirement id now (insert item) this))) ->
  forall w, exists reqs w',
    for_of (fun item => create env createRequirement (insert item)) items w
    = (Ok reqs, w')
    /\ Forall2 (made_for document) items reqs
    /\ documents (store w') = documents (store w)
    /\ created w' = (created w + length items)%nat
    /\ calls w' = calls w.
Proof.
  intros Hmade. induction items as [| item items IH]; intros w; cbn [for_of].
  - exists [], w. cbn. repeat split; [constructor | lia].
  - unfold bind at 1, create at 1.
    set (w1 := mk_World _ _ _).
    unfold bind at 1.
    destruct (IH w1) as (reqs & w2 & -> & Hreqs & Hdocs & Hcreated & Hcalls).
    eexists (_ :: reqs), w2. split; [reflexivity |].
    split; [constructor; [apply Hmade | done] |].
    rewrite Hdocs, Hcreated, Hcalls. subst w1. cbn [store created calls length].
    repeat split. lia.
Qed.

(** What the handler does with an upload it lets through, once the text is
    extracted. *)
Lemma upload_extracted (env : Environment) (file : File.t) (w : World)
    (extracted : PDFProcessingResult.t) :
  acceptable (Some file) = true ->
  extractText (pdfjs env (File.buffer file)) = Ok extracted ->
  let text := PDFProcessingResult.text extracted in
  let made := uploaded_document env file text w in
  let called := calls w ++ [ExtractText (File.buffer file); ClassifyRequirements text] in
  match classification env text with
  | Parsed result =>
      exists reqs w',
        post_requirements_upload env (Some file) w
        = (json (UploadBody (fst made) reqs
                   (tally_all (ClassificationJSON.requirements result))
                   (String.substring 0 500 text +:+ "...")), w')
        /\ Forall2 (made_for (fst made))
                   (array_or (ClassificationJSON.requirements result) []) reqs
        /\ documents (store w') = documents (snd made)
        /\ created w'
           = (created w + 1
              + length (array_or (ClassificationJSON.requirements result) []))%nat
        /\ calls w' = called
  | ApiError message | SyntaxError message =>
      post_requirements_upload env (Some file) w
      = (error 500 ("Requirements classification failed: " +:+ message),
         mk_World (snd made) (S (created w)) called)
  end.
Proof.
  intros Hok Hextract text made called. cbn in Hok.
  apply andb_prop in Hok as [Hvalid Hsize].
  assert (Hrun : post_requirements_upload env (Some file) w
                 = try_catch (
                     classificationResult <-
                       (fun w1 =>
                          (classifyRequirements text (classification env text),
                           mk_World (snd made) (S (created w)) called)) ;;
                     requirements <-
                       for_of (fun item =>
                                 create env createRequirement
                                   {| InsertRequirement.documentId :=
                                        Val (Document.id (fst made));
                                      InsertRequirement.userId := Val DEFAULT_USER_ID;
                                      InsertRequirement.text :=
                                        ClassificationItem.text item;
                                      InsertRequirement.phase :=
                                        ClassificationItem.phase item;
                                      InsertRequirement.confidence :=
                                        ClassificationItem.confidence item;
                                      InsertRequirement.userStory :=
                                        Val (ClassificationItem.userStory item) |})
                              (ClassificationResult.requirements classificationResult) ;;
                     ret (json (UploadBody (fst made) requirements
                                  (ClassificationResult.statistics classificationResult)
                                  (String.substring 0 500 text +:+ "..."))))
                     w).
  { unfold post_requirements_upload. rewrite Hvalid, Hsize. cbn [negb].
    unfold try_catch, bind at 1, await at 1. rewrite Hextract.
    unfold bind at 1, create at 1. cbn [fst snd store created calls].
    unfold bind at 1, await at 1. cbn [store created calls].
    unfold called. rewrite <- app_assoc. reflexivity. }
  rewrite Hrun. clear Hrun. unfold try_catch, bind at 1, classifyRequirements.
  destruct (classification env text) as [message | message | result];
    [reflexivity | reflexivity |].
  cbn [ClassificationResult.requirements ClassificationResult.statistics].
  unfold bind.
  match goal with
  | |- context [for_of (fun item => create env createRequirement (@?insert item))
                       ?items ?w1] =>
      destruct (for_of_createRequirement env (fst made) insert items) with (w := w1)
        as (reqs & w' & -> & Hreqs & Hdocs & Hcreated & Hcalls)
  end.
  { intros item id now this. by repeat split. }
  exists reqs, w'. unfold ret. split; [reflexivity |].
  split; [done |]. rewrite Hdocs, Hcreated, Hcalls. cbn [store created calls].
  cbn [ClassificationResult.requirements].
  split; [reflexivity |]. split; [lia | reflexivity].
Qed.

Lemma upload_extraction_failed (env : Environment) (file : File.t) (w : World)
    (message : string) :
  acceptable (Some file) = true ->
  extractText (pdfjs env (File.buffer file)) = Throw message ->
  post_requirements_upload env (Some file) w
  = (error 500 message,
     mk_World (store w) (created w) (calls w ++ [ExtractText (File.buffer file)])).
Proof.
  intros Hok Hextract. cbn in Hok. apply andb_prop in Hok as [Hvalid Hsize].
  unfold post_requirements_upload. rewrite Hvalid, Hsize. cbn [negb].
  unfold try_catch, bind at 1, await at 1. by rewrite Hextract.
Qed.

Lemma upload_not_acceptable (env : Environment) (file : option File.t) (w : World) :
  acceptable file = false ->
  exists message, post_requirements_upload env file w = (error 400 message, w).
Proof.
  destruct file as [file |]; cbn; [| by eexists].
  destruct (validatePDF (File.buffer file)); cbn; [| by eexists].
  intros ->. by eexists.
Qed.

(** X19: the upload handler answers 400 exactly when there is no file, the
    signature is missing or the buffer is too long, and then it leaves
    the world as it was; every other upload is answered 200 or 500. *)
Theorem upload_status (env : Environment) (file : option File.t) (w : World) :
  if acceptable file
  then status (fst (post_requirements_upload env file w)) = 200
       \/ status (fst (post_requirements_upload env file w)) = 500
  else status (fst (post_requirements_upload env file w)) = 400
       /\ snd (post_requirements_upload env file w) = w.
Proof.
  destruct (acceptable file) eqn:Hok.
  - destruct file as [file |]; [| discriminate].
    destruct (extractText (pdfjs env (File.buffer file))) as [extracted | message]
      eqn:Hextract.
    + pose proof (upload_extracted env file w extracted Hok Hextract) as Hrun.
      cbv zeta in Hrun.
      destruct (classification env _); try (rewrite Hrun; by right).
      destruct Hrun as (reqs & w' & -> & _). by left.
    + rewrite (upload_extraction_failed env file w message Hok Hextract). by right.
  - destruct (upload_not_acceptable env file w Hok) as [message ->]. done.
Qed.

(** X20: when pdf.js fails on an upload that passed the guards, the answer
    is 500 with message ["PDF processing failed: "] and the cause; nothing
    is stored, and the only call made is the one to [extractText]. *)
Theorem upload_extraction_failure (env : Environment) (file : File.t) (w : World)
    (cause : string) :
  acceptable (Some file) = true ->
  pdfjs env (File.buffer file) = Throw cause ->
  post_requirements_upload env (Some file) w
  = (error 500 ("PDF processing failed: " +:+ cause),
     mk_World (store w) (created w) (calls w ++ [ExtractText (File.buffer file)])).
Proof.
  intros Hok Hpdf. apply upload_extraction_failed; [done |].
  unfold extractText. by rewrite Hpdf.
Qed.

Lemma upload_extraction_failure_witness :
  post_requirements_upload env_pdfjs_fails (Some sample_file) sample_world
  = (error 500 ("PDF processing failed: " +:+ "Invalid PDF structure."),
     mk_World (store sample_world) (created sample_world)
       (calls sample_world ++ [ExtractText (File.buffer sample_file)])).
Proof.
  apply (upload_extraction_failure env_pdfjs_fails sample_file sample_world
           "Invalid PDF structure.");
    reflexivity.
Defined.

(** X21: no partial state is rolled back.  When the text was extracted
    and the classification then fails, the answer is 500, yet the Document
    created before the call stays in the store, with the extracted text as
    its content; no Requirement is stored. *)
Theorem upload_classification_failure (env : Environment) (file : File.t) (w : World)
    (extracted : PDFProcessingResult.t) :
  acceptable (Some file) = true ->
  extractText (pdfjs env (File.buffer file)) = Ok extracted ->
  ~ parsed (classification env (PDFProcessingResult.text extracted)) ->
  exists document,
    status (fst (post_requirements_upload env (Some file) w)) = 500
    /\ getDocument (Document.id document)
         (store (snd (post_requirements_upload env (Some file) w)))
       = Some document
    /\ Document.content document = PDFProcessingResult.text extracted
    /\ requirements (store (snd (post_requirements_upload env (Some file) w)))
       = requirements (store w).
Proof.
  intros Hok Hextract Hmodel.
  pose proof (upload_extracted env file w extracted Hok Hextract) as Hrun.
  cbv zeta in Hrun.
  exists (fst (uploaded_document env file (PDFProcessingResult.text extracted) w)).
  destruct (classification env _) as [message | message | result];
    [| | destruct Hmodel; by eexists];
    rewrite Hrun; cbn; (split; [done |]); (split; [apply lookup_insert_eq | done]).
Qed.

Lemma upload_classification_failure_witness :
  exists document,
    status (fst (post_requirements_upload env_model_fails (Some sample_file)
                   sample_world)) = 500
    /\ getDocument (Document.id document)
         (store (snd (post_requirements_upload env_model_fails (Some sample_file)
                        sample_world)))
       = Some document
    /\ Document.content document
       = PDFProcessingResult.text
           {| PDFProcessingResult.text :=
                "The service is patched every month. The layout follows the style guide.";
              PDFProcessingResult.pages := 1 |}
    /\ requirements (store (snd (post_requirements_upload env_model_fails
                                   (Some sample_file) sample_world)))
       = requirements (store sample_world).
Proof.
  apply (upload_classification_failure env_model_fails sample_file sample_world
           {| PDFProcessingResult.text :=
                "The service is patched every month. The layout follows the style guide.";
              PDFProcessingResult.pages := 1 |}).
  - reflexivity.
  - reflexivity.
  - intros [result Hparsed]. discriminate Hparsed.
Defined.

(** The 200 answers of the upload handler. *)
Lemma upload_ok (env : Environment) (file : option File.t) (w : World) :
  status (fst (post_requirements_upload env file w)) = 200 ->
  exists f extracted result reqs w',
    file = Some f
    /\ extractText (pdfjs env (File.buffer f)) = Ok extracted
    /\ classification env (PDFProcessingResult.text extracted) = Parsed result
    /\ post_requirements_upload env file w
       = (json (UploadBody
                  (fst (uploaded_document env f (PDFProcessingResult.text extracted) w))
                  reqs
                  (tally_all (ClassificationJSON.requirements result))
                  (String.substring 0 500 (PDFProcessingResult.text extracted)
                   +:+ "...")),
          w')
    /\ Forall2 (made_for
                  (fst (uploaded_document env f (PDFProcessingResult.text extracted) w)))
               (array_or (ClassificationJSON.requirements result) []) reqs
    /\ documents (store w')
       = documents (snd (uploaded_document env f (PDFProcessingResult.text extracted) w))
    /\ created w' = (created w + 1 + length reqs)%nat.
Proof.
  intros Hstatus.
  destruct (acceptable file) eqn:Hok.
  - destruct file as [f |]; [| discriminate].
    destruct (extractText (pdfjs env (File.buffer f))) as [extracted | message]
      eqn:Hextract.
    + pose proof (upload_extracted env f w extracted Hok Hextract) as Hrun.
      cbv zeta in Hrun.
      destruct (classification env _) as [message | message | result] eqn:Hmodel;
        try (rewrite Hrun in Hstatus; discriminate Hstatus).
      destruct Hrun as (reqs & w' & Hrun & Hreqs & Hdocs & Hcreated & _).
      exists f, extracted, result, reqs, w'. repeat split; try done.
      rewrite Hcreated. by rewrite (Forall2_length _ _ _ Hreqs).
    + rewrite (upload_extraction_failed env f w message Hok Hextract) in Hstatus.
      discriminate Hstatus.
  - destruct (upload_not_acceptable env file w Hok) as [message Hrun].
    rewrite Hrun in Hstatus. discriminate Hstatus.
Qed.

Lemma stored_phase_count_made_for (document : Document.t) (l : string)
    (items : list ClassificationItem.t) (reqs : list Requirement.t) :
  Forall2 (made_for document) items reqs ->
  stored_phase_count l reqs = phase_count l items.
Proof.
  unfold stored_phase_count, phase_count.
  induction 1 as [| item req items reqs (_ & _ & _ & Hphase & _) _ IH]; [done |].
  rewrite !filter_cons, Hphase. case_decide; cbn [length]; lia.
Qed.

(** X22: in a 200 answer to an upload, the statistics tally the
    requirements of that same answer: for each of the five labels the
    tally is the number of stored requirements returned with that phase. *)
Theorem upload_statistics_tally_answer
    (env : Environment) (file : option File.t) (w : World) :
  status (fst (post_requirements_upload env file w)) = 200 ->
  match body (fst (post_requirements_upload env file w)) with
  | UploadBody document requirements statistics extractedText =>
      forall p : Phase,
        statistics !! label p = Some (stored_phase_count (label p) requirements)
  | _ => False
  end.
Proof.
  intros Hstatus.
  destruct (upload_ok env file w Hstatus)
    as (f & extracted & result & reqs & w' & _ & _ & _ & -> & Hreqs & _).
  cbn. intros p.
  by rewrite (stored_phase_count_made_for _ _ _ _ Hreqs), tally_all_label.
Qed.

Lemma upload_statistics_tally_answer_witness :
  match body (fst (post_requirements_upload sample_env (Some sample_file) sample_world))
  with
  | UploadBody document requirements statistics extractedText =>
      forall p : Phase,
        statistics !! label p = Some (stored_phase_count (label p) requirements)
  | _ => False
  end.
Proof.
  apply (upload_statistics_tally_answer sample_env (Some sample_file) sample_world).
  reflexivity.
Defined.

(** X23: in a 200 answer to an upload, the document belongs to the default
    user and is in the store under its [id]; every requirement refers to
    that document and to that user; and one identifier was drawn for the
    document and one for each requirement. *)
Theorem upload_answer_links (env : Environment) (file : option File.t) (w : World) :
  status (fst (post_requirements_upload env file w)) = 200 ->
  match body (fst (post_requirements_upload env file w)) with
  | UploadBody document requirements statistics extractedText =>
      Document.userId document = Some DEFAULT_USER_ID
      /\ getDocument (Document.id document)
           (store (snd (post_requirements_upload env file w)))
         = Some document
      /\ Forall (fun req =>
                   Requirement.documentId req = Some (Document.id document)
                   /\ Requirement.userId req = Some DEFAULT_USER_ID)
                requirements
      /\ created (snd (post_requirements_upload env file w))
         = (created w + 1 + length requirements)%nat
  | _ => False
  end.
Proof.
  intros Hstatus.
  destruct (upload_ok env file w Hstatus)
    as (f & extracted & result & reqs & w' & _ & _ & _ & -> & Hreqs & Hdocs & Hcreated).
  cbn [fst snd body json]. split; [done |].
  split; [unfold getDocument; rewrite Hdocs; apply lookup_insert_eq |].
  split; [| exact Hcreated].
  clear -Hreqs.
  induction Hreqs as [| item req items reqs (Hdoc & Huser & _) _ IH]; constructor; auto.
Qed.

Lemma upload_answer_links_witness :
  match body (fst (post_requirements_upload sample_env (Some sample_file) sample_world))
  with
  | UploadBody document requirements statistics extractedText =>
      Document.userId document = Some DEFAULT_USER_ID
      /\ getDocument (Document.id document)
           (store (snd (post_requirements_upload sample_env (Some sample_file)
                          sample_world)))
         = Some document
      /\ Forall (fun req =>
                   Requirement.documentId req = Some (Document.id document)
                   /\ Requirement.userId req = Some DEFAULT_USER_ID)
                requirements
      /\ created (snd (post_requirements_upload sample_env (Some sample_file)
                         sample_world))
         = (created sample_world + 1 + length requirements)%nat
  | _ => False
  end.
Proof.
  apply (upload_answer_links sample_env (Some sample_file) sample_world).
  reflexivity.
Defined.

Lemma substring_prefix (n : nat) (s : string) :
  exists rest,
    s = String.substring 0 n s +:+ rest
    /\ (String.length (String.substring 0 n s) <= n)%nat.
Proof.
  revert s. induction n as [| n IH]; intros s.
  - exists s. by destruct s.
  - destruct s as [| a s]; [exists ""; split; [done | cbn; lia] |].
    destruct (IH s) as (rest & Hs & Hlen). exists rest. split.
    + change (String a s = String a (String.substring 0 n s +:+ rest)). by f_equal.
    + change (S (String.length (String.substring 0 n s)) <= S n)%nat. lia.
Qed.

(** X24: the [extractedText] of a 200 answer to an upload is a prefix of
    the stored content of the document, of at most 500 characters,
    followed by ["..."], which is appended even when nothing was cut. *)
Theorem upload_preview (env : Environment) (file : option File.t) (w : World) :
  status (fst (post_requirements_upload env file w)) = 200 ->
  match body (fst (post_requirements_upload env file w)) with
  | UploadBody document requirements statistics extractedText =>
      exists shown rest,
        extractedText = shown +:+ "..."
        /\ Document.content document = shown +:+ rest
        /\ (String.length shown <= 500)%nat
  | _ => False
  end.
Proof.
  intros Hstatus.
  destruct (upload_ok env file w Hstatus)
    as (f & extracted & result & reqs & w' & _ & _ & _ & -> & _).
  cbn [fst body json].
  destruct (substring_prefix 500 (PDFProcessingResult.text extracted))
    as (rest & Htext & Hlen).
  by exists (String.substring 0 500 (PDFProcessingResult.text extracted)), rest.
Qed.

Lemma upload_preview_witness :
  match body (fst (post_requirements_upload sample_env (Some sample_file) sample_world))
  with
  | UploadBody document requirements statistics extractedText =>
      exists shown rest,
        extractedText = shown +:+ "..."
        /\ Document.content document = shown +:+ rest
        /\ (String.length shown <= 500)%nat
  | _ => False
  end.
Proof.
  apply (upload_preview sample_env (Some sample_file) sample_world).
  reflexivity.
Defined.

(** ** The other routes *)

(** X25: in a 200 answer of [POST /api/tests/generate], the test case is
    in the store under its [id], it belongs to the default user, its
    framework is the requested one or ["unittest"], and its [totalTests]
    is the [total] of the statistics of the answer. *)
Theorem tests_answer_stored (env : Environment) (request : TestsRequest.t) (w : World) :
  status (fst (post_tests_generate env request w)) = 200 ->
  match body (fst (post_tests_generate env request w)) with
  | TestsBody testCase statistics =>
      testCases (store (snd (post_tests_generate env request w)))
        !! TestCase.id testCase = Some testCase
      /\ TestCase.userId testCase = Some DEFAULT_USER_ID
      /\ TestCase.framework testCase
         = string_or (TestsRequest.framework request) "unittest"
      /\ TestCase.totalTests testCase = Some (TestStatistics.total statistics)
      /\ created (snd (post_tests_generate env request w)) = S (created w)
  | _ => False
  end.
Proof.
  unfold post_tests_generate.
  destruct (TestsRequest.code request) as [code |]; [| discriminate].
  destruct (truthy_string code); cbn [negb]; [| discriminate].
  unfold try_catch, bind, await, create, ret.
  destruct (testGeneration env code _ _) as [message | message | result];
    cbn; try discriminate.
  intros _. split; [apply lookup_insert_eq | done].
Qed.

Lemma tests_answer_stored_witness :
  match body (fst (post_tests_generate sample_env sample_tests_request sample_world))
  with
  | TestsBody testCase statistics =>
      testCases (store (snd (post_tests_generate sample_env sample_tests_request
                               sample_world)))
        !! TestCase.id testCase = Some testCase
      /\ TestCase.userId testCase = Some DEFAULT_USER_ID
      /\ TestCase.framework testCase
         = string_or (TestsRequest.framework sample_tests_request) "unittest"
      /\ TestCase.totalTests testCase = Some (TestStatistics.total statistics)
      /\ created (snd (post_tests_generate sample_env sample_tests_request
                         sample_world))
         = S (created sample_world)
  | _ => False
  end.
Proof.
  apply (tests_answer_stored sample_env sample_tests_request sample_world).
  reflexivity.
Defined.

(** X26: the four routes that take a JSON body turn down a request whose
    required property is missing, null or the empty string: the answer is
    400 and the world is left as it was. *)
Theorem required_property_missing (x : Optional string) :
  Body.falsy x = true ->
  (forall env models language framework w,
      post_code_generate env models (GenerateRequest.mk language framework x) w
      = (Reply.mk 400 (Error "Description is required"), w))
  /\ (forall env models language w,
        post_code_fix env models (FixRequest.mk x language) w
        = (Reply.mk 400 (Error "Code is required"), w))
  /\ (forall env models style w,
        post_code_summarize env models (SummarizeRequest.mk x style) w
        = (Reply.mk 400 (Error "Code is required"), w))
  /\ (forall env models w,
        post_chat env models x w = (Reply.mk 400 (Error "Message is required"), w)).
Proof.
  intros Hx. unfold post_code_generate, post_code_fix, post_code_summarize, post_chat.
  cbn. rewrite Hx. done.
Qed.

(** The body [{ "message": "" }]. *)
Lemma required_property_missing_witness :
  (forall env models language framework w,
      post_code_generate env models (GenerateRequest.mk language framework (Val "")) w
      = (Reply.mk 400 (Error "Description is required"), w))
  /\ (forall env models language w,
        post_code_fix env models (FixRequest.mk (Val "") language) w
        = (Reply.mk 400 (Error "Code is required"), w))
  /\ (forall env models style w,
        post_code_summarize env models (SummarizeRequest.mk (Val "") style) w
        = (Reply.mk 400 (Error "Code is required"), w))
  /\ (forall env models w,
        post_chat env models (Val "") w
        = (Reply.mk 400 (Error "Message is required"), w)).
Proof. apply (required_property_missing (Val "")). reflexivity. Defined.

Lemma respond_service_create {A R I B : Type} (env : Environment)
    (outcome : Exn A)
    (method : string -> Z -> I -> MemStorage.t -> R * MemStorage.t)
    (insert : A -> I) (answer : A -> R -> B) (w : World) :
  respond (a <- service outcome ;;
           r <- create env method (insert a) ;;
           ret (answer a r)) w
  = match outcome with
    | Ok a =>
        let made := method (randomUUID env (created w)) (newDate env (created w))
                           (insert a) (store w) in
        (Reply.mk 200 (Json (answer a (fst made))),
         mk_World (snd made) (S (created w)) (calls w))
    | Throw message => (Reply.mk 500 (Error message), w)
    end.
Proof. unfold respond, bind, service, create, ret. by destruct outcome. Qed.

(** X27: a route that stores one record stores it only when it answers
    200: whenever the answer of [POST /api/code/generate], [/api/code/fix],
    [/api/code/summarize], [/api/chat] or [/api/tests/generate] is not 200,
    the store is the store before the request and no identifier was
    drawn. *)
Theorem no_record_without_200 (env : Environment) (models : Models) (w : World) :
  (forall request,
      let r := post_code_generate env models request w in
      Reply.status (fst r) = 200
      \/ store (snd r) = store w /\ created (snd r) = created w)
  /\ (forall request,
        let r := post_code_fix env models request w in
        Reply.status (fst r) = 200
        \/ store (snd r) = store w /\ created (snd r) = created w)
  /\ (forall request,
        let r := post_code_summarize env models request w in
        Reply.status (fst r) = 200
        \/ store (snd r) = store w /\ created (snd r) = created w)
  /\ (forall message,
        let r := post_chat env models message w in
        Reply.status (fst r) = 200
        \/ store (snd r) = store w /\ created (snd r) = created w)
  /\ (forall request,
        let r := post_tests_generate env request w in
        status (fst r) = 200
        \/ store (snd r) = store w /\ created (snd r) = created w).
Proof.
  split_and!; intros request; cbv zeta.
  - unfold post_code_generate. destruct (Body.falsy _); [by right |].
    rewrite respond_service_create. destruct (generateCode _ _ _ _); auto.
  - unfold post_code_fix. destruct (Body.falsy _); [by right |].
    rewrite respond_service_create. destruct (fixBugs _ _ _); auto.
  - unfold post_code_summarize. destruct (Body.falsy _); [by right |].
    rewrite respond_service_create. destruct (summarizeCode _ _ _); auto.
  - unfold post_chat. destruct (Body.falsy _); [by right |].
    rewrite respond_service_create. destruct (chatResponse _ _); auto.
  - unfold post_tests_generate.
    destruct (TestsRequest.code request) as [code |]; [| by right].
    destruct (truthy_string code); cbn [negb]; [| by right].
    unfold try_catch, bind, await, create, ret.
    destruct (generateTestCases _ _ _ _); cbn; auto.
Qed.

Lemma falsy_false (x : Optional string) :
  Body.falsy x = false -> x = Val (Body.get x) /\ Body.get x <> "".
Proof. destruct x as [| | [| a s]]; cbn; try discriminate; done. Qed.

(** X28: for a request whose [code] is a string, in a 200 answer of
    [POST /api/code/fix] the snippet is in the store under its [id], its
    [code] is the submitted code, which is not empty, its [type] is
    ["fixed"], and its [generatedCode] is the [fixedCode] of the model's
    reply when that is a non-empty string and the submitted code
    otherwise; so it is never empty. *)
Theorem fix_answer_stored (env : Environment) (models : Models)
    (request : FixRequest.t) (w : World) :
  Reply.status (fst (post_code_fix env models request w)) = 200 ->
  exists code result,
    FixRequest.code request = Val code
    /\ code <> ""
    /\ bugFix models code (FixRequest.language request) = Parsed result
    /\ match Reply.payload (fst (post_code_fix env models request w)) with
       | Json answer =>
           let snippet := FixAnswer.codeSnippet answer in
           getCodeSnippet (CodeSnippet.id snippet)
             (store (snd (post_code_fix env models request w)))
           = Some snippet
           /\ CodeSnippet.code snippet = code
           /\ CodeSnippet.type snippet = "fixed"
           /\ CodeSnippet.generatedCode snippet
              = Some (match BugFixJSON.fixedCode result with
                      | Some (String a fixed) => String a fixed
                      | Some EmptyString | None => code
                      end)
           /\ CodeSnippet.generatedCode snippet <> Some ""
       | Error _ => False
       end.
Proof.
  unfold post_code_fix. destruct (Body.falsy _) eqn:Hcode; [discriminate |].
  apply falsy_false in Hcode as [Hcode Hnonempty].
  rewrite respond_service_create.
  destruct (bugFix models _ _) as [message | message | result] eqn:Hmodel;
    cbn; try discriminate.
  intros _. exists (Body.get (FixRequest.code request)), result.
  split; [done |]. split; [done |]. split; [done |].
  split; [apply lookup_insert_eq |]. split; [done |]. split; [done |].
  destruct (BugFixJSON.fixedCode result) as [[| a fixed] |]; cbn;
    (split; [done | congruence]).
Qed.

(** The model answers [{}] to a request with code. *)
Lemma fix_answer_stored_witness :
  exists code result,
    FixRequest.code sample_fix_request = Val code
    /\ code <> ""
    /\ bugFix silent_models code (FixRequest.language sample_fix_request) = Parsed result
    /\ match Reply.payload
               (fst (post_code_fix sample_env silent_models sample_fix_request
                       sample_world))
       with
       | Json answer =>
           let snippet := FixAnswer.codeSnippet answer in
           getCodeSnippet (CodeSnippet.id snippet)
             (store (snd (post_code_fix sample_env silent_models sample_fix_request
                            sample_world)))
           = Some snippet
           /\ CodeSnippet.code snippet = code
           /\ CodeSnippet.type snippet = "fixed"
           /\ CodeSnippet.generatedCode snippet
              = Some (match BugFixJSON.fixedCode result with
                      | Some (String a fixed) => String a fixed
                      | Some EmptyString | None => code
                      end)
           /\ CodeSnippet.generatedCode snippet <> Some ""
       | Error _ => False
       end.
Proof.
  apply (fix_answer_stored sample_env silent_models sample_fix_request sample_world).
  reflexivity.
Defined.

(** X29: after a 200 answer of [POST /api/chat], the stored message
    carries the submitted text and the reply of the answer, which is not
    empty, and [GET /api/chat-history] answers 200 with a list that holds
    it. *)
Theorem chat_then_history (env : Environment) (models : Models)
    (message : Optional string) (w : World) :
  Reply.status (fst (post_chat env models message w)) = 200 ->
  match Reply.payload (fst (post_chat env models message w)) with
  | Json answer =>
      message = Val (ChatMessage.message (ChatAnswer.chatMessage answer))
      /\ ChatMessage.response (ChatAnswer.chatMessage answer) = ChatAnswer.response answer
      /\ ChatAnswer.response answer <> ""
      /\ exists history,
           get_chat_history (snd (post_chat env models message w))
           = (Reply.mk 200 (Json history), snd (post_chat env models message w))
           /\ ChatAnswer.chatMessage answer ∈ history
  | Error _ => False
  end.
Proof.
  unfold post_chat. destruct (Body.falsy _) eqn:Hmessage; [discriminate |].
  apply falsy_false in Hmessage as [Hmessage _].
  rewrite respond_service_create. unfold chatResponse.
  destruct (chat models _) as [content | cause]; cbn -[getChatMessagesByUserId];
    [| discriminate].
  intros _. split; [done |]. split; [done |].
  split; [by destruct content as [[| a s] |] |].
  eexists. split; [reflexivity |].
  unfold getChatMessagesByUserId. apply list_elem_of_filter. split; [done |].
  apply elem_of_values. eexists. cbn. apply lookup_insert_eq.
Qed.

Lemma chat_then_history_witness :
  match Reply.payload
          (fst (post_chat sample_env silent_models (Val "What is a sprint?")
                  sample_world))
  with
  | Json answer =>
      Val "What is a sprint?"
      = Val (ChatMessage.message (ChatAnswer.chatMessage answer))
      /\ ChatMessage.response (ChatAnswer.chatMessage answer) = ChatAnswer.response answer
      /\ ChatAnswer.response answer <> ""
      /\ exists history,
           get_chat_history
             (snd (post_chat sample_env silent_models (Val "What is a sprint?")
                     sample_world))
           = (Reply.mk 200 (Json history),
              snd (post_chat sample_env silent_models (Val "What is a sprint?")
                     sample_world))
           /\ ChatAnswer.chatMessage answer ∈ history
  | Error _ => False
  end.
Proof.
  apply (chat_then_history sample_env silent_models (Val "What is a sprint?")
           sample_world).
  reflexivity.
Defined.

(** ** The client and the server *)

(** X30: the guard of the client and the guards of the server agree: the
    client submits a file exactly when its type passes the [fileFilter] of
    the server and its size passes [isFileSizeValid]; a file of exactly
    10 MiB is submitted and accepted. *)
Theorem client_guard_agrees (type : string) (buffer : Buffer) :
  Client.handleFileUpload type (getFileSize buffer) = Client.Mutate
  <-> fileFilter type = Ok true /\ isFileSizeValid buffer None = true.
Proof.
  unfold Client.handleFileUpload, fileFilter. rewrite isFileSizeValid_default.
  destruct (decide (type = "application/pdf")) as [Htype | Htype].
  - rewrite bool_decide_eq_false_2 by auto. rewrite bool_decide_eq_true_2 by done.
    destruct (Z.ltb_spec (10 * 1024 * 1024) (getFileSize buffer)).
    + split; [discriminate | intros [_ ?]; lia].
    + split; [intros _; split; [done | lia] | done].
  - rewrite bool_decide_eq_true_2 by done. rewrite bool_decide_eq_false_2 by done.
    split; [discriminate | intros [[=] _]].
Qed.

(** ** The upload route behind its middleware *)




